(** * The Nowcasting API entry point (src/main.py), embedded in Rocq

    This development embeds the HTTP entry point of the national/GSP solar
    forecast API: the CORS origin list read from the environment, the timing
    middleware, the root information endpoint, the themed ReDoc page and the
    memoising OpenAPI schema generator.

    Python values are modelled as follows.
    - [str] is [string] (a sequence of bytes; the three non-ASCII apostrophes
      of [description] are their UTF-8 encoding).
    - [float] is an IEEE-754 binary64 number, [spec_float] with precision 53
      and maximal exponent 1024; [-] on floats is [SFsub 53 1024].
    - [dict] literals are association lists in insertion order; the process
      environment is a finite map; the headers of a response are the list
      of header lines Starlette keeps, with its case-insensitive lookup and
      assignment.
    - Mutable process state (the clock, the log, the object store and the
      [app.openapi_schema] attribute) is threaded through a state and
      exception monad, [py]. *)

From Stdlib Require Import ZArith Ascii String List Lia Bool.
From Stdlib Require Import Floats.SpecFloat.
From stdpp Require Import base option gmap strings list pretty.

Local Open Scope Z_scope.
Local Open Scope stdpp_scope.

(** ** Python strings *)

Module PyStr.

(** The source text is written with double quotes inside its literals.
    Here a literal is written with [~] where the source has a double quote
    (the source text has no [~]), and [unquote] puts the quote back. *)
Definition dquote : ascii := ascii_of_nat 34.
Definition tilde : ascii := ascii_of_nat 126.
Definition newline : string := String (ascii_of_nat 10) EmptyString.

Fixpoint unquote (s : string) : string :=
  match s with
  | EmptyString => EmptyString
  | String c s' =>
      String (if Ascii.eqb c tilde then dquote else c) (unquote s')
  end.

(** [s.join(pieces)] *)
Fixpoint join (sep : string) (pieces : list string) : string :=
  match pieces with
  | [] => EmptyString
  | [p] => p
  | p :: ps => p +:+ sep +:+ join sep ps
  end.

(** A literal that spans several source lines, given line by line. *)
Definition text (source_lines : list string) : string :=
  unquote (join newline source_lines).

(** [s.split(sep)] for a one-character separator: the pieces between the
    occurrences of [sep], in order; a string without [sep] (the empty
    string included) is returned whole as the only piece. *)
Fixpoint split (sep : ascii) (s : string) : list string :=
  match s with
  | EmptyString => [EmptyString]
  | String c s' =>
      if Ascii.eqb c sep then EmptyString :: split sep s'
      else match split sep s' with
           | [] => [String c EmptyString]
           | p :: ps => String c p :: ps
           end
  end.

(** [c in s] for a character *)
Fixpoint has_char (c : ascii) (s : string) : bool :=
  match s with
  | EmptyString => false
  | String c' s' => Ascii.eqb c' c || has_char c s'
  end.

(** [s.startswith(p)] *)
Fixpoint startswith (p s : string) : bool :=
  match p, s with
  | EmptyString, _ => true
  | String a p', String b s' => Ascii.eqb a b && startswith p' s'
  | String _ _, EmptyString => false
  end.

(** [p in s] for strings *)
Fixpoint contains (p s : string) : bool :=
  startswith p s ||
  match s with
  | EmptyString => false
  | String _ s' => contains p s'
  end.

(** [s.count(c)] for a character *)
Fixpoint count (c : ascii) (s : string) : nat :=
  match s with
  | EmptyString => O
  | String c' s' => if Ascii.eqb c' c then S (count c s') else count c s'
  end.

End PyStr.

(** ** Module-level constants of main.py *)

Definition title : string := "Nowcasting API".
Definition version : string := "0.2.27".

Definition description : string := PyStr.text [
    "";
    "As part of Open Climate Fix’s [open source project](https://github.com/openclimatefix), the";
    "Nowcasting API is still under development.";
    "";
    "#### General Overview";
    "";
    "__Nowcasting__ essentially means __forecasting for the next few hours__.";
    "OCF has built a predictive model that nowcasts solar energy generation for";
    "the UK’s National Grid ESO (electricity system operator). National Grid runs more than";
    "300";
    "[GSPs](https://data.nationalgrideso.com/system/gis-boundaries-for-gb-grid-supply-points)";
    "(grid supply points), which are regionally located throughout the country.";
    "OCF's Nowcasting App synthesizes real-time PV";
    "data, numeric weather predictions (nwp), satellite imagery";
    "(looking at cloud cover),";
    "as well as GSP data to";
    "forecast how much solar energy will generated for a given GSP.";
    "";
    "Here are key aspects of the solar forecasts:";
    "- Forecasts are produced in 30-minute time steps, projecting GSP yields out to";
    "eight hours ahead.";
    "- The geographic extent is all of Great Britain (GB).";
    "- Forecasts are produced at the GB National and regional level (using GSPs).";
    "";
    "OCF's incredibly accurate, short-term forecasts allow National Grid to reduce the amount of";
    "spinning reserves they need to run at any given moment, ultimately reducing";
    "carbon emmisions.";
    "";
    "In order to get started with reading the API’s forecast objects, it might be helpful to";
    "know that GSPs are referenced in the following ways:  gspId (ex. 122); gspName";
    "(ex. FIDF_1); gspGroup (ex. )";
    "regionName (ex. Fiddlers Ferry). The API provides information on when input data was";
    "last updated as well as the installed photovoltaic (PV) megawatt capacity";
    "(installedCapacityMw) of each individual GSP.";
    "";
    "You'll find more detailed information for each route in the documentation below.";
    "";
    "If you have any questions, please don't hesitate to get in touch.";
    "And if you're interested in contributing to our open source project, feel free to join us!";
    ""
  ].

(** ** The CORS origin list *)

(** [os.getenv(key, default)] over the process environment *)
Definition getenv (environ : gmap string string) (key default : string)
  : string :=
  match environ !! key with
  | Some v => v
  | None => default
  end.

(** [origins = os.getenv("ORIGINS", "https://app.nowcasting.io").split(",")] *)
Definition origins (environ : gmap string string) : list string :=
  PyStr.split "," (getenv environ "ORIGINS" "https://app.nowcasting.io").

Record CORSMiddleware := {
  allow_origins : list string;
  allow_credentials : bool;
  allow_methods : list string;
  allow_headers : list string
}.

(** [app.add_middleware(CORSMiddleware, allow_origins=origins, ...)] *)
Definition cors (environ : gmap string string) : CORSMiddleware :=
  {| allow_origins := origins environ;
     allow_credentials := true;
     allow_methods := ["*"];
     allow_headers := ["*"] |}.

(** ** Python values: JSON-like data, floats, objects *)

(** The values a route handler returns and the OpenAPI document is made of.
    A [dict] keeps its items in insertion order. *)
#[local] Unset Elimination Schemes.
Inductive json :=
  | JNone
  | JBool (b : bool)
  | JStr (s : string)
  | JList (items : list json)
  | JDict (items : list (string * json)).
#[local] Set Elimination Schemes.

(** Truth value of an object, as tested by [if x:] *)
Definition truthy (j : json) : bool :=
  match j with
  | JNone => false
  | JBool b => b
  | JStr s => negb (String.eqb s "")
  | JList items => match items with [] => false | _ => true end
  | JDict items => match items with [] => false | _ => true end
  end.

Module Dict.

Fixpoint get (k : string) (d : list (string * json)) : option json :=
  match d with
  | [] => None
  | (k', v) :: d' => if String.eqb k k' then Some v else get k d'
  end.

(** [d[k] = v]: an existing key keeps its place, a new key goes last. *)
Fixpoint set (k : string) (v : json) (d : list (string * json))
  : list (string * json) :=
  match d with
  | [] => [(k, v)]
  | (k', v') :: d' =>
      if String.eqb k k' then (k', v) :: d' else (k', v') :: set k v d'
  end.

Definition keys (d : list (string * json)) : list string := map fst d.

End Dict.

(** IEEE-754 binary64, the representation of a Python [float] *)
Definition float : Type := spec_float.
Definition prec : Z := 53.
Definition emax : Z := 1024.

(** [x - y] on floats *)
Definition float_sub (x y : float) : float := SFsub prec emax x y.

(** [x >= 0.0] *)
Definition float_nonneg (x : float) : bool :=
  SFleb (S754_zero false) x.

(** [x < 0.0] *)
Definition float_neg (x : float) : bool :=
  SFltb x (S754_zero false).

(** [x <= y] *)
Definition float_le (x y : float) : bool := SFleb x y.

(** A float that is a number of binary64: a zero, or a finite value in
    canonical form ([math.isfinite]). *)
Definition float_finite (x : float) : bool :=
  match x with
  | S754_zero _ => true
  | S754_finite _ m e => bounded prec emax m e
  | _ => false
  end.

(** Exceptions *)
Inductive exn :=
  | KeyError (key : string)
  | TypeError (msg : string)
  | Exception (name msg : string).

Inductive outcome (A : Type) :=
  | Returned (a : A)
  | Raised (e : exn).
Arguments Returned {A} a.
Arguments Raised {A} e.

(** ** Requests, responses, routes *)

Record Request := {
  method : string;
  path : string;
  request_headers : gmap string string
}.

(** Response headers, as Starlette keeps them: the header lines in order,
    each a name and a value, the names in lower case.  A name is looked up
    and assigned without regard to case. *)
Module Headers.

(** [c.lower()] on a letter of ASCII, the alphabet of header names; any
    other character is left as it is *)
Definition lower_char (c : ascii) : ascii :=
  let n := nat_of_ascii c in
  if ((65 <=? n) && (n <=? 90))%nat then ascii_of_nat (n + 32) else c.

(** [name.lower()] *)
Fixpoint lower (name : string) : string :=
  match name with
  | EmptyString => EmptyString
  | String c name' => String (lower_char c) (lower name')
  end.

(** the value of the first line stored under [name] *)
Fixpoint get (name : string) (lines : list (string * string))
  : option string :=
  match lines with
  | [] => None
  | (name', value) :: lines' =>
      if String.eqb name' name then Some value else get name lines'
  end.

(** the lines, without those stored under [name] *)
Fixpoint remove (name : string) (lines : list (string * string))
  : list (string * string) :=
  match lines with
  | [] => []
  | (name', value) :: lines' =>
      if String.eqb name' name then remove name lines'
      else (name', value) :: remove name lines'
  end.

(** The first line stored under [name] is replaced and any further line
    under that name is deleted; when there is none, the line is added at
    the end. *)
Fixpoint set (name value : string) (lines : list (string * string))
  : list (string * string) :=
  match lines with
  | [] => [(name, value)]
  | (name', value') :: lines' =>
      if String.eqb name' name then (name, value) :: remove name lines'
      else (name', value') :: set name value lines'
  end.

End Headers.

(** [response.headers], a view on [response.raw_headers] *)
Record MutableHeaders := { raw_headers : list (string * string) }.

(** [headers[key]], with [None] where Python raises [KeyError] *)
#[global] Instance headers_lookup : Lookup string string MutableHeaders :=
  λ key h, Headers.get (Headers.lower key) (raw_headers h).

(** [headers[key] = value] *)
#[global] Instance headers_insert : Insert string string MutableHeaders :=
  λ key value h,
    {| raw_headers := Headers.set (Headers.lower key) value (raw_headers h) |}.

(** no header line *)
#[global] Instance headers_empty : Empty MutableHeaders :=
  {| raw_headers := [] |}.

(** the headers of [Response(headers={key: value})] *)
#[global] Instance headers_singleton
  : SingletonM string string MutableHeaders :=
  λ key value, {| raw_headers := [(Headers.lower key, value)] |}.

Record Response := {
  status_code : nat;
  headers : MutableHeaders;
  body : string
}.

(** [response.headers[key] = value] *)
Definition set_header (key value : string) (r : Response) : Response :=
  {| status_code := status_code r;
     headers := <[key := value]> (headers r);
     body := body r |}.

(** [HTMLResponse(content)]: status 200, the content as body, and the
    headers the constructor derives from the body and the media type. *)
Definition HTMLResponse (content : string) : Response :=
  {| status_code := 200;
     headers := <["content-type" := "text/html; charset=utf-8"]>
                (<["content-length" := pretty (String.length content)]> ∅);
     body := content |}.

Record Route := {
  route_path : string;
  route_name : string;
  include_in_schema : bool
}.

(** ** Process state *)

Inductive loglevel := DEBUG | INFO | WARNING | ERROR.

(** An object reference, the identity of an object ([id(x)]). *)
Definition ref : Type := nat.

Record process := {
  (** the values successive calls of [time.time()] return *)
  wall_clock : nat → float;
  (** how many times the clock has been read *)
  clock_reads : nat;
  (** records handed to [logger], oldest first *)
  log : list (loglevel * string);
  (** the store of mutable objects *)
  heap : gmap ref json;
  (** the attribute [app.openapi_schema]; [None] until it is assigned *)
  app_openapi_schema : option ref;
  (** [app.routes] *)
  app_routes : list Route
}.

(** A computation that reads and changes the process state and either
    returns a value or raises. *)
Definition py (A : Type) : Type := process → outcome A * process.

Definition py_ret {A} (a : A) : py A := λ w, (Returned a, w).

Definition py_raise {A} (e : exn) : py A := λ w, (Raised e, w).

Definition py_bind {A B} (m : py A) (k : A → py B) : py B :=
  λ w, match m w with
       | (Returned a, w') => k a w'
       | (Raised e, w') => (Raised e, w')
       end.

#[global] Instance py_mret : MRet py := @py_ret.
#[global] Instance py_mbind : MBind py := λ A B k m, py_bind m k.

(** [time.time()] *)
Definition time_time : py float := λ w,
  (Returned (wall_clock w (clock_reads w)),
   {| wall_clock := wall_clock w; clock_reads := S (clock_reads w);
      log := log w; heap := heap w; app_openapi_schema := app_openapi_schema w;
      app_routes := app_routes w |}).

(** [logger.log(level, msg)] *)
Definition logger_log (level : loglevel) (msg : string) : py unit := λ w,
  (Returned tt,
   {| wall_clock := wall_clock w; clock_reads := clock_reads w;
      log := log w ++ [(level, msg)]; heap := heap w;
      app_openapi_schema := app_openapi_schema w; app_routes := app_routes w |}).

(** a new object in the store; its reference is one not yet in use *)
Definition new_object (value : json) : py ref := λ w,
  let r := fresh (dom (heap w)) in
  (Returned r,
   {| wall_clock := wall_clock w; clock_reads := clock_reads w;
      log := log w; heap := <[r := value]> (heap w);
      app_openapi_schema := app_openapi_schema w; app_routes := app_routes w |}).

(** [app.openapi_schema = r] *)
Definition set_openapi_schema (r : ref) : py unit := λ w,
  (Returned tt,
   {| wall_clock := wall_clock w; clock_reads := clock_reads w;
      log := log w; heap := heap w;
      app_openapi_schema := Some r; app_routes := app_routes w |}).

(** [app.routes] *)
Definition get_routes : py (list Route) := λ w, (Returned (app_routes w), w).

(** [d[k]] on a value: [KeyError] when the key is missing, [TypeError]
    when the value is not a dict. *)
Definition getitem (j : json) (k : string) : py json :=
  match j with
  | JDict d =>
      match Dict.get k d with
      | Some v => py_ret v
      | None => py_raise (KeyError k)
      end
  | _ => py_raise (TypeError "object is not subscriptable")
  end.

(** [d[k] = v] on a value *)
Definition setitem (j : json) (k : string) (v : json) : py json :=
  match j with
  | JDict d => py_ret (JDict (Dict.set k v d))
  | _ => py_raise (TypeError "object does not support item assignment")
  end.

(** [app.openapi_schema] *)
Definition get_openapi_schema : py (option ref) :=
  λ w, (Returned (app_openapi_schema w), w).

(** the object a reference denotes is replaced by its updated value *)
Definition store (r : ref) (value : json) : py unit := λ w,
  (Returned tt,
   {| wall_clock := wall_clock w; clock_reads := clock_reads w;
      log := log w; heap := <[r := value]> (heap w);
      app_openapi_schema := app_openapi_schema w; app_routes := app_routes w |}).

(** [bool(x)] for [x] either [None] or a reference to an object *)
Definition object_truth (x : option ref) : py bool := λ w,
  (Returned match x with
            | None => false
            | Some r => match heap w !! r with
                        | Some j => truthy j
                        | None => false
                        end
            end, w).

(** ** The timing middleware *)

(** the state in which the rest of the handler chain starts: the clock has
    been read once *)
Definition entered (w : process) : process := snd (time_time w).

Section Middleware.

(** [str(x)] for a float [x] *)
Variable str : float → string.

(** [@app.middleware("http") async def add_process_time_header] *)
Definition add_process_time_header
    (request : Request) (call_next : Request → py Response)
  : py Response :=
  start_time ← time_time;
  response ← call_next request;
  now ← time_time;
  let process_time := str (float_sub now start_time) in
  _ ← logger_log DEBUG ("Process Time " +:+ process_time);
  mret (set_header "X-Process-Time" process_time response).

End Middleware.

(** ** The root endpoint *)

(** [@app.get("/") async def get_api_information] *)
Definition get_api_information : py json :=
  _ ← logger_log INFO "Route / has be called";
  mret (JDict [
    ("title", JStr "Nowcasting API");
    ("version", JStr version);
    ("description", JStr description);
    ("documentation", JStr "https://api.nowcasting.io/docs")
  ]).

(** ** The ReDoc page *)

Module Redoc.

(** defaults of the keyword arguments *)
Definition openapi_url : string := "./openapi.json".
Definition redoc_js_url : string :=
  "https://cdn.jsdelivr.net/npm/redoc@next/bundles/redoc.standalone.js".
Definition redoc_favicon_url : string := "/favicon.png".
Definition with_google_fonts : bool := true.
Definition theme : json := JDict [].

(** the four literals the page is put together from; [{{] and [}}] of
    the f-strings are the braces they stand for *)
Definition head_open : string := PyStr.text [
  "";
  "    <!DOCTYPE html>";
  "    <html>";
  "    <head>";
  "    <title>"
].

Definition head_meta : string := PyStr.text [
  "</title>";
  "    <!-- needed for adaptive design -->";
  "    <meta charset=~utf-8~/>";
  "    <meta name=~viewport~ content=~width=device-width, initial-scale=1~>";
  "    "
].

Definition google_fonts : string := PyStr.text [
  "";
  "    <link href=~https://fonts.googleapis.com/css?family=Inter:300,400,700~ rel=~stylesheet~>";
  "    "
].

Definition favicon_open : string := PyStr.text [
  "";
  "    <link rel=~shortcut icon~ href=~"
].

Definition style_and_body : string := PyStr.text [
  "~>";
  "    <!--";
  "    ReDoc doesn't change outer page styles";
  "    -->";
  "    <style>";
  "      body {";
  "        margin: 0;";
  "        padding: 0;";
  "      }";
  "    </style>";
  "    </head>";
  "    <body>";
  "    <div id=~redoc-container~></div>";
  "    <noscript>";
  "        ReDoc requires Javascript to function. Please enable it to browse the documentation.";
  "    </noscript>";
  "    <script src=~"
].

Definition init_open : string := PyStr.text [
  "~> </script>";
  "    <script>";
  "        Redoc.init(~"
].

Definition init_comma : string := PyStr.text [ "~, " ].

Definition theme_literal : string := PyStr.text [
  "{";
  "            ~theme~: {";
  "                ~colors~: {";
  "                    ~primary~: {";
  "                        ~main~: ~#f7ba17~,";
  "                        ~light~: ~#ffefc6~";
  "                    },";
  "                    ~success~: {";
  "                        ~main~: ~rgba(28, 184, 65, 1)~,";
  "                        ~light~: ~#81ec9a~,";
  "                        ~dark~: ~#083312~,";
  "                        ~contrastText~: ~#000~";
  "                    },";
  "                    ~text~: {";
  "                        ~primary~: ~#14120e~,";
  "                        ~secondary~: ~#4d4d4d~";
  "                    },";
  "                    ~http~: {";
  "                        ~get~: ~#f7ba17~,";
  "                        ~post~: ~rgba(28, 184, 65, 1)~,";
  "                        ~put~: ~rgba(255, 187, 0, 1)~,";
  "                        ~delete~: ~rgba(254, 39, 35, 1)~";
  "                    }";
  "                },";
  "                ~typography~: {";
  "                    ~fontSize~: ~15px~,";
  "                    ~fontFamily~: ~Inter, sans-serif~,";
  "                    ~lineHeight~: ~1.5em~,";
  "                    ~headings~: {";
  "                        ~fontFamily~: ~Inter, sans-serif~,";
  "                        ~fontWeight~: ~bold~,";
  "                        ~lineHeight~: ~1.5em~";
  "                    },";
  "                    ~code~: {";
  "                        ~fontWeight~: ~600~,";
  "                        ~color~: ~rgba(92, 62, 189, 1)~,";
  "                        ~wrap~: true";
  "                    },";
  "                    ~links~: {";
  "                        ~color~: ~#086788~,";
  "                        ~visited~: ~#086788~,";
  "                        ~hover~: ~#32343a~";
  "                    }";
  "                },";
  "                ~sidebar~: {";
  "                    ~width~: ~300px~,";
  "                    ~textColor~: ~#000000~";
  "                },";
  "                ~logo~: {";
  "                    ~gutter~: ~10px~";
  "                },";
  "                ~rightPanel~: {";
  "                    ~backgroundColor~: ~rgba(55, 53, 71, 1)~,";
  "                    ~textColor~: ~#ffffff~";
  "                }";
  "            }";
  "        }"
].

(** the call of the viewer on a schema URL, as it is written in the page:
    [Redoc.init(], the URL in double quotes, and the comma that follows *)
Definition init_call (openapi_url : string) : string :=
  PyStr.text ["Redoc.init(~"] +:+ openapi_url +:+ PyStr.text ["~, "].

Definition page_close : string := PyStr.text [
  ", document.getElementById('redoc-container'))";
  "    </script>";
  "    </body>";
  "    </html>";
  "    "
].

(** the elements of the page that hold a parameter, as they are written
    in the page *)
Definition title_tag (title : string) : string :=
  PyStr.text ["<title>"] +:+ title +:+ PyStr.text ["</title>"].

Definition favicon_link (redoc_favicon_url : string) : string :=
  PyStr.text ["<link rel=~shortcut icon~ href=~"] +:+ redoc_favicon_url
  +:+ PyStr.text ["~>"].

Definition script_tag (redoc_js_url : string) : string :=
  PyStr.text ["<script src=~"] +:+ redoc_js_url
  +:+ PyStr.text ["~> </script>"].

Definition container : string :=
  PyStr.text ["<div id=~redoc-container~></div>"].

(** the text of the page between those elements *)
Definition doctype_and_head : string := PyStr.text [
  "";
  "    <!DOCTYPE html>";
  "    <html>";
  "    <head>";
  "    "
].

Definition meta_elements : string := PyStr.text [
  "";
  "    <!-- needed for adaptive design -->";
  "    <meta charset=~utf-8~/>";
  "    <meta name=~viewport~ content=~width=device-width, initial-scale=1~>";
  "    "
].

Definition line_break : string := PyStr.text [""; "    "].

Definition style_element : string := PyStr.text [
  "";
  "    <!--";
  "    ReDoc doesn't change outer page styles";
  "    -->";
  "    <style>";
  "      body {";
  "        margin: 0;";
  "        padding: 0;";
  "      }";
  "    </style>";
  "    </head>";
  "    <body>";
  "    "
].

Definition noscript_element : string := PyStr.text [
  "";
  "    <noscript>";
  "        ReDoc requires Javascript to function. Please enable it to browse the documentation.";
  "    </noscript>";
  "    "
].

Definition script_open : string := PyStr.text [
  "";
  "    <script>";
  "        "
].

End Redoc.

(** [def get_redoc_html_with_theme], whose arguments are all passed by
    keyword: [openapi_url], [title], [redoc_js_url], [redoc_favicon_url],
    [with_google_fonts], [theme]. *)
Definition get_redoc_html_with_theme
    (openapi_url title redoc_js_url redoc_favicon_url : string)
    (with_google_fonts : bool) (theme : json) : Response :=
  let html := Redoc.head_open +:+ title +:+ Redoc.head_meta in
  let html := if with_google_fonts then html +:+ Redoc.google_fonts
              else html in
  let html :=
    html +:+
      (((Redoc.favicon_open +:+ redoc_favicon_url +:+ Redoc.style_and_body
           +:+ redoc_js_url +:+ Redoc.init_open +:+ openapi_url
           +:+ Redoc.init_comma)
        +:+ Redoc.theme_literal)
       +:+ Redoc.page_close) in
  HTMLResponse html.

(** [@app.get("/newdocs", include_in_schema=False) async def redoc_html] *)
Definition redoc_html : py Response :=
  mret (get_redoc_html_with_theme
          Redoc.openapi_url title Redoc.redoc_js_url Redoc.redoc_favicon_url
          Redoc.with_google_fonts (JDict [])).

(** ** The OpenAPI schema generator *)

Definition contact : json := JDict [
  ("name", JStr "Open Climate Fix");
  ("url", JStr "https://openclimatefix.org");
  ("email", JStr "info@openclimatefix.org")
].

Definition license_info : json := JDict [
  ("name", JStr "MIT License");
  ("url", JStr "https://github.com/openclimatefix/nowcasting_api/blob/main/LICENSE")
].

Definition logo_url : string := "https://www.nowcasting.io/nowcasting.svg".

Definition x_logo : json := JDict [("url", JStr logo_url)].

Section OpenAPI.

(** [fastapi.openapi.utils.get_openapi(title=, version=, description=,
    contact=, license_info=, routes=)], the schema generation of the
    framework: it returns a new dict or raises. *)
Variable get_openapi :
  string → string → string → json → json → list Route → py json.

(** [def custom_openapi()] *)
Definition custom_openapi : py (option ref) :=
  cached ← get_openapi_schema;
  hit ← object_truth cached;
  if hit : bool then
    mret cached
  else
    routes ← get_routes;
    schema ← get_openapi title version description contact license_info
               routes;
    openapi_schema ← new_object schema;
    info ← getitem schema "info";
    info ← setitem info "x-logo" x_logo;
    schema ← setitem schema "info" info;
    _ ← store openapi_schema schema;
    _ ← set_openapi_schema openapi_schema;
    get_openapi_schema.

End OpenAPI.

(** The test [if app.openapi_schema:] fails: no schema is stored, or the
    stored one is false.  The generator then goes on to generate. *)
Definition uncached (w : process) : Prop :=
  fst (object_truth (app_openapi_schema w) w) = Returned false.

(** the schema [d], whose [info] is [info], after
    [schema["info"]["x-logo"] = x_logo] *)
Definition with_logo (d info : list (string * json)) : json :=
  JDict (Dict.set "info" (JDict (Dict.set "x-logo" x_logo info)) d).

(** [schema["info"][key]], if there is such an item *)
Definition info_item (schema : json) (key : string) : option json :=
  match schema with
  | JDict d =>
      match Dict.get "info" d with
      | Some (JDict info) => Dict.get key info
      | _ => None
      end
  | _ => None
  end.


(** The schema generator called [n] more times; the references the calls
    return, in order. *)
Fixpoint call_custom_openapi
    (get_openapi :
       string → string → string → json → json → list Route → py json)
    (n : nat) (w : process) : list (outcome (option ref)) * process :=
  match n with
  | O => ([], w)
  | S n' =>
      let '(r, w') := custom_openapi get_openapi w in
      let '(rs, w'') := call_custom_openapi get_openapi n' w' in
      (r :: rs, w'')
  end.

(** ** Concrete requests, handlers, clocks and states

    Instances on which the definitions above are run. *)

Module Run.

(** the binary64 float of an integer *)
Definition float_of_Z (n : Z) : float :=
  binary_normalize prec emax n 0 false.

Fixpoint zeros (n : nat) : string :=
  match n with
  | O => ""
  | S n' => String "0" (zeros n')
  end.

Fixpoint drop_zeros (s : string) : string :=
  match s with
  | String "0" s' => drop_zeros s'
  | _ => s
  end.

(** the digits after the point, without trailing zeros, one digit kept *)
Definition fraction_digits (s : string) : string :=
  match drop_zeros (String.rev s) with
  | EmptyString => "0"
  | t => String.rev t
  end.

(** [m * 2^e] written out in base 10, exactly *)
Definition decimal_of (m : positive) (e : Z) : string :=
  match e with
  | Zneg k =>
      let k := Pos.to_nat k in
      let digits := pretty (Npos m * 5 ^ N.of_nat k)%N in
      let digits := zeros (S k - String.length digits) +:+ digits in
      let n := (String.length digits - k)%nat in
      Strings.String.substring 0 n digits +:+ "." +:+
      fraction_digits (Strings.String.substring n k digits)
  | _ => pretty (Npos m * 2 ^ Z.to_N e)%N +:+ ".0"
  end.

(** A base-10 rendering of a float that reads back as the same float:
    its exact decimal expansion. *)
Definition exact_decimal (x : float) : string :=
  match x with
  | S754_zero s => if s then "-0.0" else "0.0"
  | S754_infinity s => if s then "-inf" else "inf"
  | S754_nan => "nan"
  | S754_finite s m e =>
      (if s then "-" else "") +:+ decimal_of m e
  end.

Definition get_root : Request :=
  {| method := "GET"; path := "/"; request_headers := ∅ |}.

(** a handler that answers 200 with a JSON body *)
Definition ok_handler (request : Request) : py Response :=
  mret {| status_code := 200;
          headers := {[ "content-type" := "application/json" ]};
          body := "{}" |}.

(** a handler that puts a process time of its own on its response *)
Definition stamping_handler (request : Request) : py Response :=
  mret {| status_code := 200;
          headers := <["Content-Type" := "application/json"]>
                     {[ "X-PROCESS-TIME" := "0.25" ]};
          body := "{}" |}.

(** a handler that raises *)
Definition failing_handler (request : Request) : py Response :=
  py_raise (Exception "RuntimeError" "database is unreachable").

(** the routes main.py itself registers *)
Definition own_routes : list Route := [
  {| route_path := "/"; route_name := "get_api_information";
     include_in_schema := true |};
  {| route_path := "/favicon.ico"; route_name := "get_favicon";
     include_in_schema := false |};
  {| route_path := "/newdocs"; route_name := "redoc_html";
     include_in_schema := false |}
].

(** a process that has just started, with a given clock *)
Definition started (clock : nat → float) : process :=
  {| wall_clock := clock; clock_reads := 0; log := []; heap := ∅;
     app_openapi_schema := None; app_routes := own_routes |}.

(** a clock that advances by a second between two readings *)
Definition steady_clock (k : nat) : float :=
  float_of_Z (1000 + Z.of_nat k).

(** a clock that is set back by a second between two readings *)
Definition clock_set_back (k : nat) : float :=
  float_of_Z (1000 - Z.of_nat k).

(** A schema generation with the shape of the framework's result: an
    [info] object holding the metadata it is given, and one path per
    route that is included in the schema. *)
Definition get_openapi
    (title version description : string) (contact license_info : json)
    (routes : list Route) : py json :=
  let info := [("title", JStr title); ("version", JStr version)] in
  let info := if negb (String.eqb description "")
              then Dict.set "description" (JStr description) info
              else info in
  let info := if truthy contact
              then Dict.set "contact" contact info else info in
  let info := if truthy license_info
              then Dict.set "license" license_info info else info in
  mret (JDict [
    ("openapi", JStr "3.0.2");
    ("info", JDict info);
    ("paths",
      JDict (map (λ r, (route_path r, JDict []))
                 (filter (λ r, include_in_schema r = true) routes)))
  ]).

(** a clock that does not move between two readings *)
Definition frozen_clock (k : nat) : float := float_of_Z 1000.

(** a process whose stored schema is an empty dict *)
Definition stale : process :=
  {| wall_clock := steady_clock; clock_reads := 0; log := [];
     heap := {[ 0%nat := JDict [] ]};
     app_openapi_schema := Some 0%nat; app_routes := own_routes |}.

(** a schema generation whose result has no [info] *)
Definition get_openapi_without_info
    (title version description : string) (contact license_info : json)
    (routes : list Route) : py json :=
  mret (JDict [("openapi", JStr "3.0.2"); ("paths", JDict [])]).

(** a schema generation that raises *)
Definition failing_get_openapi
    (title version description : string) (contact license_info : json)
    (routes : list Route) : py json :=
  py_raise (Exception "AssertionError" "a response model is not valid").

End Run.

(** ** Signs of floats *)

(** [x < y] *)
Definition float_lt (x y : float) : bool := SFltb x y.

(** [r] is a zero, a finite number or an infinity of sign [s] (and so not
    a NaN) *)
Definition has_sign (s : bool) (r : float) : Prop :=
  match r with
  | S754_zero s' | S754_infinity s' | S754_finite s' _ _ => s' = s
  | S754_nan => False
  end.

(** [r] is a number other than zero *)
Definition nonzero (r : float) : Prop :=
  match r with
  | S754_zero _ | S754_nan => False
  | _ => True
  end.

(** * Properties *)

(** ** Strings *)

Module PyStrFacts.
Import PyStr.

#[local] Arguments Strings.String.append : simpl nomatch.

Lemma append_assoc (a b c : string) : (a +:+ b) +:+ c = a +:+ b +:+ c.
Proof. induction a as [|x a IH]; simpl; congruence. Qed.

Lemma append_empty_r (a : string) : a +:+ "" = a.
Proof. induction a as [|x a IH]; simpl; congruence. Qed.

Lemma split_not_nil sep s : split sep s ≠ [].
Proof.
  destruct s as [|c s]; simpl; [discriminate |].
  destruct (Ascii.eqb c sep); [discriminate |].
  destruct (split sep s); discriminate.
Qed.

(** A string without the separator is its own single piece. *)
Lemma split_without_sep sep s : has_char sep s = false → split sep s = [s].
Proof.
  induction s as [|c s IH]; simpl; [reflexivity |].
  intros H. apply orb_false_iff in H as [Hc Hs].
  rewrite Hc, (IH Hs). reflexivity.
Qed.

(** No piece contains the separator. *)
Lemma split_pieces_free sep s :
  Forall (λ p, has_char sep p = false) (split sep s).
Proof.
  induction s as [|c s IH]; simpl.
  - repeat constructor.
  - destruct (Ascii.eqb c sep) eqn:Hc.
    + constructor; [reflexivity | exact IH].
    + destruct (split sep s) as [|p ps]; [repeat constructor; simpl; now rewrite Hc |].
      inversion IH as [|? ? Hp Hps]; subst.
      constructor; [simpl; now rewrite Hc, Hp | exact Hps].
Qed.

(** Joining the pieces with the separator gives the string back. *)
Lemma join_split sep s : join (String sep "") (split sep s) = s.
Proof.
  induction s as [|c s IH]; simpl; [reflexivity |].
  destruct (Ascii.eqb c sep) eqn:Hc.
  - apply Ascii.eqb_eq in Hc; subst c.
    pose proof (split_not_nil sep s) as Hne.
    destruct (split sep s) as [|p ps]; [congruence |].
    simpl in *. now rewrite IH.
  - pose proof (split_not_nil sep s) as Hne.
    destruct (split sep s) as [|p ps]; [congruence |].
    destruct ps as [|q ps]; simpl in *; now rewrite <- IH.
Qed.

(** One more piece than there are separators. *)
Lemma split_with_sep sep s :
  has_char sep s = true → (2 ≤ length (split sep s))%nat.
Proof.
  induction s as [|c s IH]; simpl; [discriminate |].
  destruct (Ascii.eqb c sep) eqn:Hc; simpl.
  - intros _. pose proof (split_not_nil sep s).
    destruct (split sep s); simpl; [congruence | lia].
  - intros H. specialize (IH H).
    destruct (split sep s); simpl in *; lia.
Qed.

Lemma startswith_spec p s :
  startswith p s = true ↔ ∃ t, s = p +:+ t.
Proof.
  revert s; induction p as [|a p IH]; intros s; simpl.
  - split; [intros _; now exists s | reflexivity].
  - destruct s as [|b s].
    + split; [discriminate | intros [t Ht]; discriminate].
    + rewrite andb_true_iff, Ascii.eqb_eq, IH. split.
      * intros [-> [t ->]]. now exists t.
      * intros [t Ht]. injection Ht as -> ->. split; [reflexivity | now exists t].
Qed.

(** [p in s] holds exactly when [s] is [p] with something before and
    something after. *)
Lemma contains_spec p s :
  contains p s = true ↔ ∃ before after, s = before +:+ p +:+ after.
Proof.
  induction s as [|c s IH].
  - simpl. rewrite orb_false_r, startswith_spec. split.
    + intros [t Ht]. now exists "", t.
    + intros [b [a Ha]]. destruct b; [now exists a | discriminate].
  - cbn [contains]. rewrite orb_true_iff, startswith_spec, IH. split.
    + intros [[t Ht] | [b [a Ha]]].
      * now exists "", t.
      * exists (String c b), a. simpl. now rewrite Ha.
    + intros [b [a Ha]]. destruct b as [|x b].
      * left. now exists a.
      * right. simpl in Ha. injection Ha as _ ->. now exists b, a.
Qed.

Lemma contains_intro p before after :
  contains p (before +:+ p +:+ after) = true.
Proof. apply contains_spec. now exists before, after. Qed.

End PyStrFacts.

(** ** Floats *)

Module FloatFacts.

Section Rounding.


Lemma shr_1_nonneg mrs : 0 <= shr_m mrs → 0 <= shr_m (shr_1 mrs).
Proof.
  destruct mrs as [m r s]. simpl.
  destruct m as [|p|p]; simpl; try lia.
  - destruct p; simpl; lia.
Qed.

Lemma iter_pos_invariant {A} (P : A → Prop) (f : A → A) :
  (∀ a, P a → P (f a)) → ∀ n a, P a → P (SpecFloat.iter_pos f n a).
Proof.
  intros Hf. induction n as [n IH|n IH|]; intros a Ha; simpl; auto.
Qed.

Lemma shr_record_of_loc_m m l : shr_m (shr_record_of_loc m l) = m.
Proof. destruct l as [|[| |]]; reflexivity. Qed.

Lemma shr_fexp_nonneg m e l :
  0 <= m → 0 <= shr_m (fst (shr_fexp prec emax m e l)).
Proof.
  intros Hm. unfold shr_fexp, shr.
  destruct (fexp prec emax (Zdigits2 m + e) - e) as [|p|p]; simpl;
    rewrite ?shr_record_of_loc_m; try assumption.
  apply iter_pos_invariant with (P := λ mrs, 0 <= shr_m mrs).
  - apply shr_1_nonneg.
  - now rewrite shr_record_of_loc_m.
Qed.

Lemma round_nearest_even_nonneg m l : 0 <= m → 0 <= round_nearest_even m l.
Proof. destruct l as [|[| |]]; simpl; try destruct (Z.even m); lia. Qed.

Lemma binary_round_aux_nonneg m e l :
  0 <= m → float_nonneg (binary_round_aux prec emax false m e l) = true.
Proof.
  intros Hm. unfold binary_round_aux.
  pose proof (shr_fexp_nonneg m e l Hm) as H1.
  destruct (shr_fexp prec emax m e l) as [mrs' e']. simpl in H1.
  pose proof (shr_fexp_nonneg _ e' loc_Exact
                (round_nearest_even_nonneg _ (loc_of_shr_record mrs') H1)) as H2.
  destruct (shr_fexp prec emax _ e' loc_Exact) as [mrs'' e'']. simpl in H2.
  destruct (shr_m mrs'') as [|p|p]; [reflexivity | | lia].
  destruct (e'' <=? emax - prec); reflexivity.
Qed.

Lemma binary_normalize_nonneg m e :
  0 <= m → float_nonneg (binary_normalize prec emax m e false) = true.
Proof.
  intros Hm. destruct m as [|p|p]; [reflexivity | | lia].
  unfold binary_normalize, binary_round.
  destruct (shl_align _ _ _) as [mz ez].
  apply binary_round_aux_nonneg. lia.
Qed.
End Rounding.

Section Order.

Lemma prec_pos : 0 < prec.
Proof. reflexivity. Qed.

Lemma digits2_pos_bounds m :
  2 ^ (Zpos (digits2_pos m) - 1) <= Zpos m < 2 ^ Zpos (digits2_pos m).
Proof.
  induction m as [m IH|m IH|]; simpl digits2_pos.
  - rewrite Pos2Z.inj_succ, Z.pow_succ_r by lia.
    replace (Z.succ (Zpos (digits2_pos m)) - 1) with (Z.succ (Zpos (digits2_pos m) - 1)) by lia.
    rewrite Z.pow_succ_r by lia. lia.
  - rewrite Pos2Z.inj_succ, Z.pow_succ_r by lia.
    replace (Z.succ (Zpos (digits2_pos m)) - 1) with (Z.succ (Zpos (digits2_pos m) - 1)) by lia.
    rewrite Z.pow_succ_r by lia. lia.
  - simpl. lia.
Qed.

Lemma iter_xO m d : Zpos (Pos.iter xO m d) = Zpos m * 2 ^ Zpos d.
Proof.
  induction d as [|d IH] using Pos.peano_ind.
  - simpl. lia.
  - rewrite Pos.iter_succ, Pos2Z.inj_succ, Z.pow_succ_r by lia.
    rewrite Pos2Z.inj_xO, IH. lia.
Qed.

(** aligning a mantissa to a smaller exponent multiplies it by a power of two *)
Lemma shl_align_value m e e' :
  e' <= e → Zpos (fst (shl_align m e e')) = Zpos m * 2 ^ (e - e').
Proof.
  intros He. unfold shl_align.
  destruct (e' - e) as [|d|d] eqn:Hd; simpl.
  - replace (e - e') with 0 by lia. simpl. lia.
  - lia.
  - rewrite iter_xO. replace (e - e') with (Zpos d) by lia. reflexivity.
Qed.

(** a canonical mantissa has at most [prec] bits, and exactly [prec] bits
    above the smallest exponent *)
Lemma bounded_digits m e :
  bounded prec emax m e = true →
  emin prec emax <= e /\ Zpos (digits2_pos m) <= prec /\
  (emin prec emax < e → Zpos (digits2_pos m) = prec).
Proof.
  unfold bounded, canonical_mantissa, fexp. intros H.
  apply andb_true_iff in H as [H _]. apply Z.eqb_eq in H. lia.
Qed.

(** between canonical mantissas, the larger exponent is the larger number *)
Lemma aligned_lt m1 e1 m2 e2 :
  bounded prec emax m1 e1 = true → bounded prec emax m2 e2 = true →
  e1 < e2 →
  Zpos m1 < Zpos m2 * 2 ^ (e2 - e1).
Proof.
  intros H1 H2 He. pose proof prec_pos as Hprec.
  apply bounded_digits in H1 as (Hmin1 & Hd1 & _).
  apply bounded_digits in H2 as (_ & _ & Hd2).
  specialize (Hd2 ltac:(lia)).
  pose proof (digits2_pos_bounds m1) as [_ Hm1].
  pose proof (digits2_pos_bounds m2) as [Hm2 _].
  rewrite Hd2 in Hm2.
  assert (2 ^ Zpos (digits2_pos m1) <= 2 ^ prec) by (apply Z.pow_le_mono_r; lia).
  assert (2 ^ prec = 2 * 2 ^ (prec - 1)).
  { rewrite <- Z.pow_succ_r by lia. f_equal; lia. }
  assert (2 ^ 1 <= 2 ^ (e2 - e1)) by (apply Z.pow_le_mono_r; lia).
  change (2 ^ 1) with 2 in *.
  nia.
Qed.

End Order.

Section Subtraction.

(** the exact difference of the aligned mantissas is not negative when
    the first number is not below the second *)
Lemma aligned_difference_nonneg sx mx ex sy my ey :
  bounded prec emax mx ex = true → bounded prec emax my ey = true →
  SFleb (S754_finite sy my ey) (S754_finite sx mx ex) = true →
  0 <= cond_Zopp sx (Zpos (fst (shl_align mx ex (Z.min ex ey))))
       - cond_Zopp sy (Zpos (fst (shl_align my ey (Z.min ex ey)))).
Proof.
  intros Hx Hy Hle.
  rewrite !shl_align_value by lia.
  unfold SFleb, SFcompare in Hle.
  pose proof (aligned_lt mx ex my ey Hx Hy) as Hxy.
  pose proof (aligned_lt my ey mx ex Hy Hx) as Hyx.
  assert (0 < 2 ^ (ex - Z.min ex ey)) by (apply Z.pow_pos_nonneg; lia).
  assert (0 < 2 ^ (ey - Z.min ex ey)) by (apply Z.pow_pos_nonneg; lia).
  destruct sx, sy; unfold cond_Zopp; cbn in Hle; try discriminate; try nia.
  - (* both negative *)
    destruct (Z.compare_spec ey ex) as [Heq|Hlt|Hgt]; try discriminate.
    + subst ey. rewrite Z.min_id, Z.sub_diag, Z.pow_0_r in *.
      change (PosDef.Pos.compare_cont Eq my mx) with (Pos.compare my mx) in Hle.
      destruct (Pos.compare_spec my mx); cbn in Hle; try discriminate; lia.
    + specialize (Hxy ltac:(lia)).
      replace (Z.min ex ey) with ex in * by lia.
      rewrite Z.sub_diag, Z.pow_0_r in *. lia.
  - (* both positive *)
    destruct (Z.compare_spec ey ex) as [Heq|Hlt|Hgt]; try discriminate.
    + subst ey. rewrite Z.min_id, Z.sub_diag, Z.pow_0_r in *.
      change (PosDef.Pos.compare_cont Eq my mx) with (Pos.compare my mx) in Hle.
      destruct (Pos.compare_spec my mx); cbn in Hle; try discriminate; lia.
    + specialize (Hyx ltac:(lia)).
      replace (Z.min ex ey) with ey in * by lia.
      rewrite Z.sub_diag, Z.pow_0_r in *. lia.
Qed.

(** The difference of two finite floats is not negative (and not a NaN)
    when the first is not below the second. *)
Lemma float_sub_nonneg x y :
  float_finite x = true → float_finite y = true →
  float_le y x = true →
  float_nonneg (float_sub x y) = true.
Proof.
  intros Hx Hy Hle.
  unfold float_le, float_sub in *.
  destruct x as [sx| | |sx mx ex], y as [sy| | |sy my ey];
    try discriminate.
  - destruct sx, sy; reflexivity.
  - destruct sy; [reflexivity | discriminate].
  - destruct sx; [discriminate | reflexivity].
  - simpl. apply binary_normalize_nonneg.
    now apply aligned_difference_nonneg.
Qed.
End Subtraction.

End FloatFacts.

(** ** The CORS origin list *)

(** C5. The value of [ORIGINS] is split on commas.  Setting it to
    [https://a.example,https://b.example] gives exactly the two origins
    [https://a.example] and [https://b.example]; leaving it out gives exactly
    the default origin [https://app.nowcasting.io].  In general the origins
    are the comma-free pieces of the value, in order: joined by commas they
    are the value again.  The list is what the CORS middleware is given. *)
Theorem origins_split_on_commas (environ : gmap string string) :
  origins (<["ORIGINS" := "https://a.example,https://b.example"]> environ)
    = ["https://a.example"; "https://b.example"]
  ∧ origins (delete "ORIGINS" environ) = ["https://app.nowcasting.io"]
  ∧ PyStr.join "," (origins environ)
    = getenv environ "ORIGINS" "https://app.nowcasting.io"
  ∧ Forall (λ o, PyStr.has_char "," o = false) (origins environ)
  ∧ allow_origins (cors environ) = origins environ.
Proof.
  repeat split.
  - unfold origins, getenv. now rewrite lookup_insert_eq.
  - unfold origins, getenv. now rewrite lookup_delete_eq.
  - apply PyStrFacts.join_split.
  - apply PyStrFacts.split_pieces_free.
Qed.

(** C6. Whatever the environment holds, the origin list is not empty; and
    a value of [ORIGINS] with no comma in it (a list written with another
    separator, a stray word, the empty string) gives the one-element list
    that holds the value as it is. *)
Theorem origins_never_empty (environ : gmap string string) (raw : string) :
  origins environ ≠ []
  ∧ allow_origins (cors environ) ≠ []
  ∧ (PyStr.has_char "," raw = false →
     origins (<["ORIGINS" := raw]> environ) = [raw]).
Proof.
  repeat split.
  - apply PyStrFacts.split_not_nil.
  - apply PyStrFacts.split_not_nil.
  - intros Hraw. unfold origins, getenv. rewrite lookup_insert_eq.
    now apply PyStrFacts.split_without_sep.
Qed.

Lemma origins_never_empty_witness :
  PyStr.has_char "," "https://a.example;https://b.example" = false
  ∧ origins (<["ORIGINS" := "https://a.example;https://b.example"]> ∅)
    = ["https://a.example;https://b.example"].
Proof.
  split; [reflexivity |].
  apply (origins_never_empty ∅ "https://a.example;https://b.example").
  reflexivity.
Defined.

(** A value with a comma in it is split: the list then has at least two
    elements, so it is not the raw value on its own. *)
Lemma origins_with_comma (environ : gmap string string) (raw : string) :
  PyStr.has_char "," raw = true →
  (2 ≤ length (origins (<["ORIGINS" := raw]> environ)))%nat.
Proof.
  intros Hraw. unfold origins, getenv. rewrite lookup_insert_eq.
  now apply PyStrFacts.split_with_sep.
Qed.

(** ** The root endpoint *)

(** C2. Every call of [GET /] returns a body with exactly the four fields
    [title], [version], [description] and [documentation], where [title] is
    "Nowcasting API" and [version] is "0.2.27"; the call leaves one log
    record and changes nothing else. *)
Theorem get_api_information_fields (w : process) :
  ∃ fields w',
    get_api_information w = (Returned (JDict fields), w')
    ∧ Dict.keys fields = ["title"; "version"; "description"; "documentation"]
    ∧ Dict.get "title" fields = Some (JStr "Nowcasting API")
    ∧ Dict.get "version" fields = Some (JStr "0.2.27")
    ∧ Dict.get "description" fields = Some (JStr description)
    ∧ Dict.get "documentation" fields
      = Some (JStr "https://api.nowcasting.io/docs")
    ∧ log w' = log w ++ [(INFO, "Route / has be called")]
    ∧ heap w' = heap w
    ∧ app_openapi_schema w' = app_openapi_schema w.
Proof.
  eexists _, _. split; [reflexivity |].
  repeat split; reflexivity.
Qed.

(** ** Response headers *)

Module HeadersFacts.

Lemma header_get_remove_ne name name' lines :
  name' ≠ name →
  Headers.get name' (Headers.remove name lines) = Headers.get name' lines.
Proof.
  intros Hne. induction lines as [|[n v] lines IH]; simpl; [reflexivity |].
  destruct (String.eqb n name) eqn:Hn; simpl.
  - apply String.eqb_eq in Hn; subst n.
    apply String.eqb_neq in Hne. rewrite String.eqb_sym in Hne.
    now rewrite Hne.
  - now rewrite IH.
Qed.

Lemma header_get_set_eq name value lines :
  Headers.get name (Headers.set name value lines) = Some value.
Proof.
  induction lines as [|[n v] lines IH]; simpl.
  - now rewrite String.eqb_refl.
  - destruct (String.eqb n name) eqn:Hn; simpl.
    + now rewrite String.eqb_refl.
    + now rewrite Hn.
Qed.

Lemma header_get_set_ne name name' value lines :
  name' ≠ name →
  Headers.get name' (Headers.set name value lines) = Headers.get name' lines.
Proof.
  intros Hne. induction lines as [|[n v] lines IH]; simpl.
  - apply String.eqb_neq in Hne. rewrite String.eqb_sym in Hne.
    now rewrite Hne.
  - destruct (String.eqb n name) eqn:Hn; simpl.
    + apply String.eqb_eq in Hn; subst n.
      apply String.eqb_neq in Hne. rewrite String.eqb_sym in Hne.
      rewrite Hne. now apply header_get_remove_ne, String.eqb_neq;
        rewrite String.eqb_sym.
    + now rewrite IH.
Qed.

(** the lines of the other names, in their order *)
Lemma others_remove name lines :
  filter (λ line, line.1 ≠ name) (Headers.remove name lines)
  = filter (λ line, line.1 ≠ name) lines.
Proof.
  induction lines as [|[n v] lines IH]; simpl; [reflexivity |].
  destruct (String.eqb n name) eqn:Hn.
  - apply String.eqb_eq in Hn; subst n.
    rewrite filter_cons_False by (simpl; auto). exact IH.
  - apply String.eqb_neq in Hn.
    rewrite !filter_cons_True by (simpl; auto). now rewrite IH.
Qed.

Lemma others_set name value lines :
  filter (λ line, line.1 ≠ name) (Headers.set name value lines)
  = filter (λ line, line.1 ≠ name) lines.
Proof.
  induction lines as [|[n v] lines IH]; simpl.
  - now rewrite filter_cons_False by (simpl; auto).
  - destruct (String.eqb n name) eqn:Hn.
    + apply String.eqb_eq in Hn; subst n.
      rewrite !filter_cons_False by (simpl; auto). apply others_remove.
    + apply String.eqb_neq in Hn.
      rewrite !filter_cons_True by (simpl; auto). now rewrite IH.
Qed.

(** after [headers[key] = value], [headers[key]] is [value] *)
Lemma lookup_set_eq (h : MutableHeaders) key value :
  <[key := value]> h !! key = Some value.
Proof. apply header_get_set_eq. Qed.

(** and it is [value] under the name in any other case, too *)
Lemma lookup_set_same_name (h : MutableHeaders) key key' value :
  Headers.lower key' = Headers.lower key →
  <[key := value]> h !! key' = Some value.
Proof.
  intros Hsame. unfold lookup, headers_lookup. rewrite Hsame.
  apply header_get_set_eq.
Qed.

(** the headers of another name are as they were *)
Lemma lookup_set_ne (h : MutableHeaders) key key' value :
  Headers.lower key' ≠ Headers.lower key →
  <[key := value]> h !! key' = h !! key'.
Proof. intros Hne. now apply header_get_set_ne. Qed.

End HeadersFacts.

(** ** The timing middleware *)

Section MiddlewareFacts.

Variable str : float → string.
Variable request : Request.
Variable call_next : Request → py Response.

(** What the middleware does when the rest of the chain returns. *)
Lemma add_process_time_header_returned w response w' :
  call_next request (entered w) = (Returned response, w') →
  let process_time :=
    str (float_sub (wall_clock w' (clock_reads w'))
                   (wall_clock w (clock_reads w))) in
  add_process_time_header str request call_next w
  = (Returned (set_header "X-Process-Time" process_time response),
     snd (logger_log DEBUG ("Process Time " +:+ process_time)
            (snd (time_time w')))).
Proof.
  intros Hnext. unfold add_process_time_header, mbind, py_mbind, py_bind.
  unfold entered in Hnext. simpl in *. rewrite Hnext. reflexivity.
Qed.

(** C8. When the rest of the chain returns a response, the middleware
    returns it with the same status code and the same body.  Of the headers
    only [X-Process-Time] is set.  Header names do not depend on case: the
    header is there under its name in any case, and a line the handler had
    put under that name is replaced.  Every header of another name is as it
    was, and the header lines of the other names are the same lines in the
    same order. *)
Theorem add_process_time_header_frame w response w' :
  call_next request (entered w) = (Returned response, w') →
  ∃ out w'',
    add_process_time_header str request call_next w = (Returned out, w'')
    ∧ status_code out = status_code response
    ∧ body out = body response
    ∧ is_Some (headers out !! "X-Process-Time")
    ∧ (∀ name, Headers.lower name = "x-process-time" →
         headers out !! name = headers out !! "X-Process-Time")
    ∧ (∀ name, Headers.lower name ≠ "x-process-time" →
         headers out !! name = headers response !! name)
    ∧ filter (λ line, line.1 ≠ "x-process-time") (raw_headers (headers out))
      = filter (λ line, line.1 ≠ "x-process-time")
          (raw_headers (headers response)).
Proof.
  intros Hnext. eexists _, _.
  split; [exact (add_process_time_header_returned _ _ _ Hnext) |].
  cbn [status_code body headers set_header].
  split; [reflexivity |]. split; [reflexivity |].
  split; [rewrite HeadersFacts.lookup_set_eq; eauto |].
  split; [| split].
  - intros name Hname.
    rewrite HeadersFacts.lookup_set_eq.
    now apply HeadersFacts.lookup_set_same_name.
  - intros name Hname. now apply HeadersFacts.lookup_set_ne.
  - apply HeadersFacts.others_set.
Qed.

(** C9. When the rest of the chain raises, the middleware raises the same
    exception and stops there: the state is the one the chain left, so the
    clock is not read again and nothing is logged, and no response exists
    for a header to be set on. *)
Theorem add_process_time_header_raises w e w' :
  call_next request (entered w) = (Raised e, w') →
  add_process_time_header str request call_next w = (Raised e, w').
Proof.
  intros Hnext. unfold add_process_time_header, mbind, py_mbind, py_bind.
  unfold entered in Hnext. simpl in *. now rewrite Hnext.
Qed.

(** C1, as the code has it. When the rest of the chain returns a
    response, the response the middleware returns carries an
    [X-Process-Time] header: the string of the float obtained by
    subtracting the clock reading taken before the chain from the reading
    taken after it.  That float is not negative (and is a number) when the
    second reading is not below the first; the wall clock does not promise
    that. *)
Theorem add_process_time_header_value w response w' :
  call_next request (entered w) = (Returned response, w') →
  let start_time := wall_clock w (clock_reads w) in
  let now := wall_clock w' (clock_reads w') in
  float_finite start_time = true →
  float_finite now = true →
  float_le start_time now = true →
  ∃ out w'',
    add_process_time_header str request call_next w = (Returned out, w'')
    ∧ headers out !! "X-Process-Time" = Some (str (float_sub now start_time))
    ∧ float_nonneg (float_sub now start_time) = true
    ∧ float_neg (float_sub now start_time) = false.
Proof.
  intros Hnext start_time now Hstart Hnow Hle. eexists _, _.
  split; [exact (add_process_time_header_returned _ _ _ Hnext) |].
  pose proof (FloatFacts.float_sub_nonneg now start_time Hnow Hstart Hle)
    as Hnonneg.
  repeat split.
  - cbn [headers set_header]. now rewrite HeadersFacts.lookup_set_eq.
  - exact Hnonneg.
  - revert Hnonneg. unfold float_nonneg, float_neg, SFleb, SFltb.
    destruct (float_sub now start_time) as [[|]|[|]| |[|] m e];
      simpl; congruence.
Qed.

End MiddlewareFacts.

Lemma add_process_time_header_value_witness :
  let w := Run.started Run.steady_clock in
  let response := {| status_code := 200;
                     headers := {[ "content-type" := "application/json" ]};
                     body := "{}" |} in
  Run.ok_handler Run.get_root (entered w) = (Returned response, entered w)
  ∧ float_finite (Run.steady_clock 0) = true
  ∧ float_finite (Run.steady_clock 1) = true
  ∧ float_le (Run.steady_clock 0) (Run.steady_clock 1) = true
  ∧ ∃ out w'',
      add_process_time_header Run.exact_decimal Run.get_root Run.ok_handler w
      = (Returned out, w'')
      ∧ headers out !! "X-Process-Time"
        = Some (Run.exact_decimal
                  (float_sub (Run.steady_clock 1) (Run.steady_clock 0)))
      ∧ float_nonneg (float_sub (Run.steady_clock 1) (Run.steady_clock 0))
        = true
      ∧ float_neg (float_sub (Run.steady_clock 1) (Run.steady_clock 0))
        = false.
Proof.
  intros w response.
  split; [reflexivity |]. split; [reflexivity |].
  split; [reflexivity |]. split; [reflexivity |].
  apply (add_process_time_header_value Run.exact_decimal Run.get_root
           Run.ok_handler w response (entered w));
    reflexivity.
Defined.

(** With a steady clock the header reads [1.0]. *)
Example process_time_steady_clock :
  ∃ out w',
    add_process_time_header Run.exact_decimal Run.get_root Run.ok_handler
      (Run.started Run.steady_clock) = (Returned out, w')
    ∧ headers out !! "X-Process-Time" = Some "1.0"
    ∧ log w' = [(DEBUG, "Process Time 1.0")].
Proof.
  eexists _, _. split.
  - now apply (add_process_time_header_returned Run.exact_decimal Run.get_root
                 Run.ok_handler (Run.started Run.steady_clock)).
  - split; vm_compute; reflexivity.
Qed.

(** C1 fails as stated. When the wall clock is set back by a second while
    the request is handled, the request completes normally and the header
    reads [-1.0]: the string of a float that is below zero. *)
Lemma process_time_negative_when_clock_set_back :
  let w := Run.started Run.clock_set_back in
  let process_time := float_sub (Run.clock_set_back 1) (Run.clock_set_back 0) in
  ∃ out w',
    add_process_time_header Run.exact_decimal Run.get_root Run.ok_handler w
    = (Returned out, w')
    ∧ headers out !! "X-Process-Time" = Some (Run.exact_decimal process_time)
    ∧ Run.exact_decimal process_time = "-1.0"
    ∧ float_neg process_time = true
    ∧ float_nonneg process_time = false.
Proof.
  intros w process_time. eexists _, _. split.
  - now apply (add_process_time_header_returned Run.exact_decimal Run.get_root
                 Run.ok_handler w).
  - repeat split; vm_compute; reflexivity.
Qed.

Lemma add_process_time_header_frame_witness :
  let w := Run.started Run.steady_clock in
  let response := {| status_code := 200;
                     headers := {[ "content-type" := "application/json" ]};
                     body := "{}" |} in
  Run.ok_handler Run.get_root (entered w) = (Returned response, entered w)
  ∧ ∃ out w'',
      add_process_time_header Run.exact_decimal Run.get_root Run.ok_handler w
      = (Returned out, w'')
      ∧ status_code out = status_code response
      ∧ body out = body response
      ∧ is_Some (headers out !! "X-Process-Time")
      ∧ (∀ name, Headers.lower name = "x-process-time" →
           headers out !! name = headers out !! "X-Process-Time")
      ∧ (∀ name, Headers.lower name ≠ "x-process-time" →
           headers out !! name = headers response !! name)
      ∧ filter (λ line, line.1 ≠ "x-process-time")
          (raw_headers (headers out))
        = filter (λ line, line.1 ≠ "x-process-time")
            (raw_headers (headers response)).
Proof.
  intros w response. split; [reflexivity |].
  apply (add_process_time_header_frame Run.exact_decimal Run.get_root
           Run.ok_handler w response (entered w)).
  reflexivity.
Defined.

(** A process time the handler had put on its response is replaced, in
    its place among the header lines, whatever the case of its name. *)
Example handler_process_time_replaced :
  ∃ out w',
    add_process_time_header Run.exact_decimal Run.get_root
      Run.stamping_handler (Run.started Run.steady_clock) = (Returned out, w')
    ∧ raw_headers (headers out)
      = [("x-process-time", "1.0"); ("content-type", "application/json")]
    ∧ headers out !! "x-process-time" = Some "1.0"
    ∧ headers out !! "X-PROCESS-TIME" = Some "1.0".
Proof.
  eexists _, _. split.
  - now apply (add_process_time_header_returned Run.exact_decimal
                 Run.get_root Run.stamping_handler
                 (Run.started Run.steady_clock)).
  - repeat split; vm_compute; reflexivity.
Qed.

Lemma add_process_time_header_raises_witness :
  let w := Run.started Run.steady_clock in
  let e := Exception "RuntimeError" "database is unreachable" in
  Run.failing_handler Run.get_root (entered w) = (Raised e, entered w)
  ∧ add_process_time_header Run.exact_decimal Run.get_root
      Run.failing_handler w = (Raised e, entered w).
Proof.
  intros w e. split; [reflexivity |].
  apply (add_process_time_header_raises Run.exact_decimal Run.get_root
           Run.failing_handler w e (entered w)).
  reflexivity.
Defined.

(** ** The ReDoc page *)

Section RedocFacts.

#[local] Arguments Strings.String.append : simpl nomatch.

Variables openapi_url page_title redoc_js_url redoc_favicon_url : string.
Variable with_google_fonts : bool.

(** The page, piece by piece. *)
Lemma page_shape theme :
  body (get_redoc_html_with_theme openapi_url page_title redoc_js_url
          redoc_favicon_url with_google_fonts theme)
  = Redoc.head_open +:+ page_title +:+ Redoc.head_meta
    +:+ (if with_google_fonts then Redoc.google_fonts else "")
    +:+ Redoc.favicon_open +:+ redoc_favicon_url +:+ Redoc.style_and_body
    +:+ redoc_js_url +:+ Redoc.init_open +:+ openapi_url
    +:+ Redoc.init_comma +:+ Redoc.theme_literal +:+ Redoc.page_close.
Proof.
  unfold get_redoc_html_with_theme, HTMLResponse; cbn [body].
  destruct with_google_fonts;
    rewrite !PyStrFacts.append_assoc; reflexivity.
Qed.

Lemma init_open_split :
  Redoc.init_open
  = PyStr.text ["~> </script>"; "    <script>"; "        "]
    +:+ PyStr.text ["Redoc.init(~"].
Proof. reflexivity. Qed.

Lemma page_contains_title theme :
  PyStr.contains page_title
    (body (get_redoc_html_with_theme openapi_url page_title redoc_js_url
             redoc_favicon_url with_google_fonts theme)) = true.
Proof. rewrite page_shape. apply PyStrFacts.contains_intro. Qed.

Lemma page_contains_script_url theme :
  PyStr.contains redoc_js_url
    (body (get_redoc_html_with_theme openapi_url page_title redoc_js_url
             redoc_favicon_url with_google_fonts theme)) = true.
Proof.
  rewrite page_shape. apply PyStrFacts.contains_spec.
  eexists (Redoc.head_open +:+ page_title +:+ Redoc.head_meta
           +:+ (if with_google_fonts then Redoc.google_fonts else "")
           +:+ Redoc.favicon_open +:+ redoc_favicon_url
           +:+ Redoc.style_and_body), _.
  rewrite !PyStrFacts.append_assoc. reflexivity.
Qed.

Lemma page_contains_init_call theme :
  PyStr.contains (Redoc.init_call openapi_url)
    (body (get_redoc_html_with_theme openapi_url page_title redoc_js_url
             redoc_favicon_url with_google_fonts theme)) = true.
Proof.
  rewrite page_shape, init_open_split. apply PyStrFacts.contains_spec.
  eexists (Redoc.head_open +:+ page_title +:+ Redoc.head_meta
           +:+ (if with_google_fonts then Redoc.google_fonts else "")
           +:+ Redoc.favicon_open +:+ redoc_favicon_url
           +:+ Redoc.style_and_body +:+ redoc_js_url
           +:+ PyStr.text ["~> </script>"; "    <script>"; "        "]),
          (Redoc.theme_literal +:+ Redoc.page_close).
  unfold Redoc.init_call.
  change Redoc.init_comma with (PyStr.text ["~, "]).
  rewrite !PyStrFacts.append_assoc. reflexivity.
Qed.

Lemma page_contains_theme_literal theme :
  PyStr.contains Redoc.theme_literal
    (body (get_redoc_html_with_theme openapi_url page_title redoc_js_url
             redoc_favicon_url with_google_fonts theme)) = true.
Proof.
  rewrite page_shape. apply PyStrFacts.contains_spec.
  eexists (Redoc.head_open +:+ page_title +:+ Redoc.head_meta
           +:+ (if with_google_fonts then Redoc.google_fonts else "")
           +:+ Redoc.favicon_open +:+ redoc_favicon_url
           +:+ Redoc.style_and_body +:+ redoc_js_url +:+ Redoc.init_open
           +:+ openapi_url +:+ Redoc.init_comma), _.
  rewrite !PyStrFacts.append_assoc. reflexivity.
Qed.

End RedocFacts.

(** C7, as the code has it. The renderer is a function of its six
    parameters and of nothing else, so equal parameters give the same bytes.
    Its page contains the title passed in, the viewer script URL passed in,
    and a call of the viewer on the schema URL passed in.  [GET /newdocs]
    renders with the module title and the default URLs whatever the state of
    the process, and leaves that state as it is: its page holds the call on
    [./openapi.json]. *)
Theorem redoc_page_contents
    (openapi_url page_title redoc_js_url redoc_favicon_url : string)
    (with_google_fonts : bool) (theme : json) :
  let page :=
    body (get_redoc_html_with_theme openapi_url page_title redoc_js_url
            redoc_favicon_url with_google_fonts theme) in
  PyStr.contains page_title page = true
  ∧ PyStr.contains redoc_js_url page = true
  ∧ PyStr.contains (Redoc.init_call openapi_url) page = true
  ∧ ∀ w : process,
      ∃ response,
        redoc_html w = (Returned response, w)
        ∧ (∀ w2, fst (redoc_html w2) = Returned response)
        ∧ PyStr.contains title (body response) = true
        ∧ PyStr.contains Redoc.redoc_js_url (body response) = true
        ∧ PyStr.contains (Redoc.init_call "./openapi.json") (body response)
          = true.
Proof.
  intros page. split; [apply page_contains_title |].
  split; [apply page_contains_script_url |].
  split; [apply page_contains_init_call |].
  intros w. eexists. split; [reflexivity |].
  split; [reflexivity |].
  split; [apply page_contains_title |].
  split; [apply page_contains_script_url |].
  apply (page_contains_init_call Redoc.openapi_url).
Qed.

(** C7 fails as stated. Rendered for another schema URL, the page calls the
    viewer on that URL, and [./openapi.json] occurs nowhere in it. *)
Lemma redoc_page_other_schema_url :
  let page :=
    body (get_redoc_html_with_theme "/v0/schema.json" title
            Redoc.redoc_js_url Redoc.redoc_favicon_url true (JDict [])) in
  PyStr.contains "./openapi.json" page = false
  ∧ PyStr.contains (Redoc.init_call "./openapi.json") page = false
  ∧ PyStr.contains (Redoc.init_call "/v0/schema.json") page = true.
Proof. vm_compute. repeat split. Qed.

(** C10. The page does not depend on the [theme] argument: any two themes
    give the same response.  The theme the page hands to the viewer is the
    literal written in the source. *)
Theorem redoc_page_ignores_theme
    (openapi_url page_title redoc_js_url redoc_favicon_url : string)
    (with_google_fonts : bool) (theme1 theme2 : json) :
  get_redoc_html_with_theme openapi_url page_title redoc_js_url
    redoc_favicon_url with_google_fonts theme1
  = get_redoc_html_with_theme openapi_url page_title redoc_js_url
      redoc_favicon_url with_google_fonts theme2
  ∧ PyStr.contains Redoc.theme_literal
      (body (get_redoc_html_with_theme openapi_url page_title redoc_js_url
               redoc_favicon_url with_google_fonts theme1)) = true.
Proof. split; [reflexivity | apply page_contains_theme_literal]. Qed.

(** ** The OpenAPI schema generator *)

Module DictFacts.

Lemma get_set_eq k v d : Dict.get k (Dict.set k v d) = Some v.
Proof.
  induction d as [|[k' v'] d IH]; simpl.
  - now rewrite String.eqb_refl.
  - destruct (String.eqb k k') eqn:Hk; simpl; rewrite Hk; auto.
Qed.

Lemma get_set_ne k k' v d :
  k ≠ k' → Dict.get k' (Dict.set k v d) = Dict.get k' d.
Proof.
  intros Hne. induction d as [|[k0 v0] d IH]; simpl.
  - apply String.eqb_neq in Hne. rewrite String.eqb_sym in Hne.
    now rewrite Hne.
  - destruct (String.eqb k k0) eqn:Hk; simpl.
    + apply String.eqb_eq in Hk; subst k0.
      apply String.eqb_neq in Hne. rewrite String.eqb_sym in Hne.
      now rewrite Hne.
    + destruct (String.eqb k' k0); auto.
Qed.



End DictFacts.



Section OpenAPIFacts.

Variable get_openapi :
  string → string → string → json → json → list Route → py json.




End OpenAPIFacts.




(** The generator run three times on a process that has just started: one
    object is made, and all three calls return the reference to it. *)
Example custom_openapi_three_calls :
  let '(results, w) :=
    call_custom_openapi Run.get_openapi 3 (Run.started Run.steady_clock) in
  results = [Returned (Some 0%nat); Returned (Some 0%nat);
             Returned (Some 0%nat)]
  ∧ app_openapi_schema w = Some 0%nat
  ∧ size (heap w) = 1%nat.
Proof. vm_compute. repeat split. Qed.

(** When the framework's generation raises, the generator raises the same
    exception and stores nothing: the next call generates again. *)
Example custom_openapi_generation_fails :
  let '(results, w) :=
    call_custom_openapi Run.failing_get_openapi 2
      (Run.started Run.steady_clock) in
  results
  = [Raised (Exception "AssertionError" "a response model is not valid");
     Raised (Exception "AssertionError" "a response model is not valid")]
  ∧ app_openapi_schema w = None.
Proof. vm_compute. repeat split. Qed.

(** * Further properties *)

(** ** The sign of a difference of floats *)

Module FloatSignFacts.
Import FloatFacts.

Lemma binary_round_aux_sign s m e l :
  0 <= m → has_sign s (binary_round_aux prec emax s m e l).
Proof.
  intros Hm. unfold binary_round_aux.
  pose proof (shr_fexp_nonneg m e l Hm) as H1.
  destruct (shr_fexp prec emax m e l) as [mrs' e']. simpl in H1.
  pose proof (shr_fexp_nonneg _ e' loc_Exact
                (round_nearest_even_nonneg _ (loc_of_shr_record mrs') H1))
    as H2.
  destruct (shr_fexp prec emax _ e' loc_Exact) as [mrs'' e'']. simpl in H2.
  destruct (shr_m mrs'') as [|p|p]; [reflexivity | | lia].
  destruct (e'' <=? emax - prec); reflexivity.
Qed.

Lemma shr_1_half mrs : 0 <= shr_m mrs → shr_m (shr_1 mrs) = shr_m mrs / 2.
Proof.
  destruct mrs as [m r s]. simpl. intros Hm.
  destruct m as [|p|p]; [reflexivity | | lia].
  destruct p as [p|p|]; simpl shr_m.
  - apply Z.div_unique with (r := 1); lia.
  - apply Z.div_unique with (r := 0); lia.
  - reflexivity.
Qed.

Lemma iter_shr_1 p : ∀ mrs,
  0 <= shr_m mrs →
  shr_m (SpecFloat.iter_pos shr_1 p mrs) = shr_m mrs / 2 ^ Zpos p.
Proof.
  induction p as [p IH|p IH|]; intros mrs Hm; simpl SpecFloat.iter_pos.
  - assert (0 < 2 ^ Zpos p) as Hpow by (apply Z.pow_pos_nonneg; lia).
    assert (0 <= shr_m (shr_1 mrs)) by now apply shr_1_nonneg.
    assert (0 <= shr_m (SpecFloat.iter_pos shr_1 p (shr_1 mrs)))
      by (rewrite IH by assumption; apply Z.div_pos; lia).
    rewrite IH, IH, shr_1_half by assumption.
    replace (2 ^ Zpos p~1) with (2 * (2 ^ Zpos p * 2 ^ Zpos p))
      by (rewrite <- Z.pow_add_r, <- Z.pow_succ_r by lia; f_equal; lia).
    rewrite !Z.div_div by lia. reflexivity.
  - assert (0 < 2 ^ Zpos p) as Hpow by (apply Z.pow_pos_nonneg; lia).
    assert (0 <= shr_m (SpecFloat.iter_pos shr_1 p mrs))
      by (rewrite IH by assumption; apply Z.div_pos; lia).
    rewrite IH, IH by assumption.
    replace (2 ^ Zpos p~0) with (2 ^ Zpos p * 2 ^ Zpos p)
      by (rewrite <- Z.pow_add_r by lia; f_equal; lia).
    rewrite Z.div_div by lia. reflexivity.
  - rewrite shr_1_half by assumption. reflexivity.
Qed.

(** At or above the smallest exponent, rounding a positive mantissa to the
    format leaves a positive mantissa: gradual underflow. *)
Lemma shr_fexp_pos m e l :
  0 < m → emin prec emax <= e →
  0 < shr_m (fst (shr_fexp prec emax m e l))
  ∧ emin prec emax <= snd (shr_fexp prec emax m e l).
Proof.
  intros Hm He. unfold shr_fexp, shr.
  destruct m as [|m|m]; try lia. simpl Zdigits2.
  destruct (fexp prec emax (Zpos (digits2_pos m) + e) - e) as [|p|p] eqn:Hn;
    simpl fst; simpl snd; rewrite ?shr_record_of_loc_m; try lia.
  rewrite iter_shr_1 by (rewrite shr_record_of_loc_m; lia).
  rewrite shr_record_of_loc_m.
  unfold fexp in Hn. pose proof prec_pos.
  pose proof (digits2_pos_bounds m) as [Hlo _].
  split; [| lia].
  apply Z.div_str_pos. split; [apply Z.pow_pos_nonneg; lia |].
  etransitivity; [| exact Hlo]. apply Z.pow_le_mono_r; lia.
Qed.

Lemma round_nearest_even_pos m l : 0 < m → 0 < round_nearest_even m l.
Proof. destruct l as [|[| |]]; simpl; try destruct (Z.even m); lia. Qed.

Lemma binary_round_aux_nonzero s m e l :
  0 < m → emin prec emax <= e →
  nonzero (binary_round_aux prec emax s m e l).
Proof.
  intros Hm He. unfold binary_round_aux.
  pose proof (shr_fexp_pos m e l Hm He) as [H1 He1].
  destruct (shr_fexp prec emax m e l) as [mrs' e']. simpl in H1, He1.
  pose proof (shr_fexp_pos _ e' loc_Exact
                (round_nearest_even_pos _ (loc_of_shr_record mrs') H1) He1)
    as [H2 _].
  destruct (shr_fexp prec emax _ e' loc_Exact) as [mrs'' e'']. simpl in H2.
  destruct (shr_m mrs'') as [|p|p]; try lia.
  destruct (e'' <=? emax - prec); exact I.
Qed.

Lemma binary_round_sign_nonzero s m e :
  emin prec emax <= e →
  has_sign s (binary_round prec emax s m e)
  ∧ nonzero (binary_round prec emax s m e).
Proof.
  intros He. unfold binary_round.
  destruct (shl_align m e (fexp prec emax (Zpos (digits2_pos m) + e)))
    as [mz ez] eqn:Hal.
  split; [apply binary_round_aux_sign; lia |].
  apply binary_round_aux_nonzero; [lia |].
  unfold shl_align in Hal.
  destruct (fexp prec emax (Zpos (digits2_pos m) + e) - e) eqn:Hd;
    injection Hal as _ <-; unfold fexp in *; lia.
Qed.



(** between canonical floats, the order on the numbers is the order on the
    aligned signed mantissas *)
Lemma aligned_difference_neg sx mx ex sy my ey :
  bounded prec emax mx ex = true → bounded prec emax my ey = true →
  SFltb (S754_finite sx mx ex) (S754_finite sy my ey) = true →
  cond_Zopp sx (Zpos (fst (shl_align mx ex (Z.min ex ey))))
  - cond_Zopp sy (Zpos (fst (shl_align my ey (Z.min ex ey)))) < 0.
Proof.
  intros Hx Hy Hlt.
  rewrite !shl_align_value by lia.
  unfold SFltb, SFcompare in Hlt.
  pose proof (aligned_lt mx ex my ey Hx Hy) as Hxy.
  pose proof (aligned_lt my ey mx ex Hy Hx) as Hyx.
  assert (0 < 2 ^ (ex - Z.min ex ey)) by (apply Z.pow_pos_nonneg; lia).
  assert (0 < 2 ^ (ey - Z.min ex ey)) by (apply Z.pow_pos_nonneg; lia).
  destruct sx, sy; unfold cond_Zopp; cbn in Hlt; try discriminate; try nia.
  - (* both negative *)
    destruct (Z.compare_spec ex ey) as [Heq|Hlt'|Hgt]; try discriminate.
    + subst ey. rewrite Z.min_id, Z.sub_diag, Z.pow_0_r in *.
      change (PosDef.Pos.compare_cont Eq mx my) with (Pos.compare mx my)
        in Hlt.
      destruct (Pos.compare_spec mx my); cbn in Hlt; try discriminate; lia.
    + specialize (Hyx ltac:(lia)).
      replace (Z.min ex ey) with ey in * by lia.
      rewrite Z.sub_diag, Z.pow_0_r in *. lia.
  - (* both positive *)
    destruct (Z.compare_spec ex ey) as [Heq|Hlt'|Hgt]; try discriminate.
    + subst ey. rewrite Z.min_id, Z.sub_diag, Z.pow_0_r in *.
      change (PosDef.Pos.compare_cont Eq mx my) with (Pos.compare mx my)
        in Hlt.
      destruct (Pos.compare_spec mx my); cbn in Hlt; try discriminate; lia.
    + specialize (Hxy ltac:(lia)).
      replace (Z.min ex ey) with ex in * by lia.
      rewrite Z.sub_diag, Z.pow_0_r in *. lia.
Qed.

Lemma binary_normalize_sign m e :
  has_sign (m <? 0) (binary_normalize prec emax m e false).
Proof.
  destruct m as [|p|p]; simpl; [reflexivity | |];
    unfold binary_round; destruct (shl_align _ _ _) as [mz ez];
    apply binary_round_aux_sign; lia.
Qed.

(** The difference of two finite floats is a number. *)
Lemma float_sub_not_nan x y :
  float_finite x = true → float_finite y = true →
  float_sub x y ≠ S754_nan.
Proof.
  intros Hx Hy. unfold float_sub.
  destruct x as [sx| | |sx mx ex], y as [sy| | |sy my ey];
    try discriminate.
  - destruct sx, sy; discriminate.
  - simpl. intros Hnan.
    pose proof (binary_normalize_sign
      (cond_Zopp sx (Zpos (fst (shl_align mx ex (Z.min ex ey))))
       - cond_Zopp sy (Zpos (fst (shl_align my ey (Z.min ex ey)))))
      (Z.min ex ey)) as Hs.
    rewrite Hnan in Hs. exact Hs.
Qed.

(** A finite float minus itself is the positive zero. *)
Lemma float_sub_diag x :
  float_finite x = true → float_sub x x = S754_zero false.
Proof.
  intros Hx. unfold float_sub.
  destruct x as [sx| | |sx mx ex]; try discriminate.
  - destruct sx; reflexivity.
  - simpl. now rewrite Z.sub_diag.
Qed.

(** A finite float minus a larger one is below zero. *)
Lemma float_sub_neg x y :
  float_finite x = true → float_finite y = true →
  float_lt x y = true →
  float_neg (float_sub x y) = true.
Proof.
  intros Hx Hy Hlt. unfold float_lt, float_sub in *.
  destruct x as [sx| | |sx mx ex], y as [sy| | |sy my ey];
    try discriminate.
  - destruct sy; [discriminate | reflexivity].
  - destruct sx; [reflexivity | discriminate].
  - simpl in Hx, Hy. simpl SFsub.
    pose proof (aligned_difference_neg sx mx ex sy my ey Hx Hy Hlt) as Hd.
    apply bounded_digits in Hx as (Hex & _), Hy as (Hey & _).
    destruct (cond_Zopp sx (Zpos (fst (shl_align mx ex (Z.min ex ey))))
              - cond_Zopp sy (Zpos (fst (shl_align my ey (Z.min ex ey)))))
      as [|p|p]; try lia.
    simpl binary_normalize.
    destruct (binary_round_sign_nonzero true p (Z.min ex ey) ltac:(lia))
      as [Hs Hnz].
    destruct (binary_round prec emax true p (Z.min ex ey)) as [s|s| |s m e];
      simpl in Hs, Hnz; try contradiction; subst s; reflexivity.
Qed.

End FloatSignFacts.

(** ** The CORS origin list, continued *)

Module SplitFacts.
Import PyStr.

#[local] Arguments Strings.String.append : simpl nomatch.

Lemma split_length sep s : length (split sep s) = S (count sep s).
Proof.
  induction s as [|c s IH]; simpl; [reflexivity |].
  destruct (Ascii.eqb c sep); simpl; [now rewrite IH |].
  destruct (split sep s); simpl in *; lia.
Qed.

(** the pieces of [a], a separator, [b] are the pieces of [a] followed by
    the pieces of [b] *)
Lemma split_app_sep sep a b :
  split sep (a +:+ String sep b) = split sep a ++ split sep b.
Proof.
  induction a as [|c a IH]; simpl.
  - now rewrite Ascii.eqb_refl.
  - destruct (Ascii.eqb c sep); [now rewrite IH |].
    rewrite IH. pose proof (PyStrFacts.split_not_nil sep a).
    destruct (split sep a); [congruence | reflexivity].
Qed.

End SplitFacts.

(** X1. There is one origin more than there are commas in the value. *)
Theorem origins_count (environ : gmap string string) :
  length (origins environ)
  = S (PyStr.count "," (getenv environ "ORIGINS" "https://app.nowcasting.io")).
Proof. apply SplitFacts.split_length. Qed.

(** X2. Two values joined by a comma give the origins of the first followed
    by the origins of the second.  So nothing is trimmed or dropped: a value
    that ends in a comma has the empty string as its last origin, and one
    that starts with a comma has it as its first. *)
Theorem origins_of_joined_values
    (environ : gmap string string) (a b : string) :
  origins (<["ORIGINS" := a +:+ "," +:+ b]> environ)
  = origins (<["ORIGINS" := a]> environ)
    ++ origins (<["ORIGINS" := b]> environ)
  ∧ last (origins (<["ORIGINS" := a +:+ ","]> environ)) = Some ""
  ∧ head (origins (<["ORIGINS" := "," +:+ b]> environ)) = Some "".
Proof.
  unfold origins, getenv. rewrite !lookup_insert_eq.
  split; [apply SplitFacts.split_app_sep |]. split.
  - change (a +:+ ",") with (a +:+ String "," "").
    rewrite SplitFacts.split_app_sep. simpl. apply last_snoc.
  - reflexivity.
Qed.

(** ** The timing middleware, continued *)

Section MiddlewareMore.

Variable str : float → string.
Variable request : Request.
Variable call_next : Request → py Response.


(** X4. Whatever the clock does, the header holds a number: for finite
    readings the difference is never a NaN. *)
Theorem add_process_time_header_number w response w' :
  call_next request (entered w) = (Returned response, w') →
  let start_time := wall_clock w (clock_reads w) in
  let now := wall_clock w' (clock_reads w') in
  float_finite start_time = true →
  float_finite now = true →
  ∃ out w'' process_time,
    add_process_time_header str request call_next w = (Returned out, w'')
    ∧ headers out !! "X-Process-Time" = Some (str process_time)
    ∧ process_time = float_sub now start_time
    ∧ process_time ≠ S754_nan.
Proof.
  intros Hnext start_time now Hstart Hnow. eexists _, _, _.
  split; [exact (add_process_time_header_returned _ _ _ _ _ _ Hnext) |].
  split; [cbn [headers set_header]; apply HeadersFacts.lookup_set_eq |].
  split; [reflexivity |].
  now apply FloatSignFacts.float_sub_not_nan.
Qed.

(** X5. When the clock has not moved between the two readings, the header
    is the string of the positive zero, never of the negative zero. *)
Theorem add_process_time_header_zero w response w' :
  call_next request (entered w) = (Returned response, w') →
  float_finite (wall_clock w (clock_reads w)) = true →
  wall_clock w' (clock_reads w') = wall_clock w (clock_reads w) →
  ∃ out w'',
    add_process_time_header str request call_next w = (Returned out, w'')
    ∧ headers out !! "X-Process-Time" = Some (str (S754_zero false)).
Proof.
  intros Hnext Hfinite Hsame. eexists _, _.
  split; [exact (add_process_time_header_returned _ _ _ _ _ _ Hnext) |].
  cbn [headers set_header]. rewrite HeadersFacts.lookup_set_eq, Hsame.
  now rewrite FloatSignFacts.float_sub_diag.
Qed.

(** X6. When the clock has been set back between the two readings, the
    header is the string of a float below zero. *)
Theorem add_process_time_header_negative w response w' :
  call_next request (entered w) = (Returned response, w') →
  let start_time := wall_clock w (clock_reads w) in
  let now := wall_clock w' (clock_reads w') in
  float_finite start_time = true →
  float_finite now = true →
  float_lt now start_time = true →
  ∃ out w'',
    add_process_time_header str request call_next w = (Returned out, w'')
    ∧ headers out !! "X-Process-Time" = Some (str (float_sub now start_time))
    ∧ float_neg (float_sub now start_time) = true
    ∧ float_nonneg (float_sub now start_time) = false.
Proof.
  intros Hnext start_time now Hstart Hnow Hlt. eexists _, _.
  split; [exact (add_process_time_header_returned _ _ _ _ _ _ Hnext) |].
  split; [cbn [headers set_header]; apply HeadersFacts.lookup_set_eq |].
  pose proof (FloatSignFacts.float_sub_neg now start_time Hnow Hstart Hlt)
    as Hneg.
  split; [exact Hneg |].
  revert Hneg. unfold float_nonneg, float_neg, SFleb, SFltb.
  destruct (float_sub now start_time) as [[|]|[|]| |[|] m e];
    simpl; congruence.
Qed.

End MiddlewareMore.

(** ** The ReDoc page, continued *)

Section RedocMore.

#[local] Arguments Strings.String.append : simpl nomatch.

Variables openapi_url page_title redoc_js_url redoc_favicon_url : string.
Variable theme : json.

Lemma length_append (a b : string) :
  String.length (a +:+ b) = (String.length a + String.length b)%nat.
Proof. induction a as [|c a IH]; simpl; [reflexivity | now rewrite IH]. Qed.

(** X7. The font flag only adds the stylesheet link, right after the meta
    elements of the head: taking the link out of the page rendered with
    fonts gives the page rendered without them. *)
Theorem redoc_page_fonts :
  let before := Redoc.head_open +:+ page_title +:+ Redoc.head_meta in
  ∃ after,
    body (get_redoc_html_with_theme openapi_url page_title redoc_js_url
            redoc_favicon_url true theme)
    = before +:+ Redoc.google_fonts +:+ after
    ∧ body (get_redoc_html_with_theme openapi_url page_title redoc_js_url
              redoc_favicon_url false theme)
      = before +:+ after
    ∧ String.length
        (body (get_redoc_html_with_theme openapi_url page_title redoc_js_url
                 redoc_favicon_url true theme))
      = (String.length
           (body (get_redoc_html_with_theme openapi_url page_title
                    redoc_js_url redoc_favicon_url false theme))
         + 98)%nat.
Proof.
  intros before.
  exists (Redoc.favicon_open +:+ redoc_favicon_url +:+ Redoc.style_and_body
          +:+ redoc_js_url +:+ Redoc.init_open +:+ openapi_url
          +:+ Redoc.init_comma +:+ Redoc.theme_literal +:+ Redoc.page_close).
  assert (body (get_redoc_html_with_theme openapi_url page_title redoc_js_url
                  redoc_favicon_url true theme)
          = before +:+ Redoc.google_fonts +:+
            (Redoc.favicon_open +:+ redoc_favicon_url +:+ Redoc.style_and_body
             +:+ redoc_js_url +:+ Redoc.init_open +:+ openapi_url
             +:+ Redoc.init_comma +:+ Redoc.theme_literal
             +:+ Redoc.page_close)) as Hwith
    by (rewrite page_shape; unfold before;
        rewrite !PyStrFacts.append_assoc; reflexivity).
  assert (body (get_redoc_html_with_theme openapi_url page_title redoc_js_url
                  redoc_favicon_url false theme)
          = before +:+
            (Redoc.favicon_open +:+ redoc_favicon_url +:+ Redoc.style_and_body
             +:+ redoc_js_url +:+ Redoc.init_open +:+ openapi_url
             +:+ Redoc.init_comma +:+ Redoc.theme_literal
             +:+ Redoc.page_close)) as Hwithout
    by (rewrite page_shape; unfold before;
        rewrite !PyStrFacts.append_assoc; reflexivity).
  split; [exact Hwith |]. split; [exact Hwithout |].
  rewrite Hwith, Hwithout, !(length_append before),
    (length_append Redoc.google_fonts).
  change (String.length Redoc.google_fonts) with 98%nat. lia.
Qed.

Lemma head_open_split :
  Redoc.head_open = Redoc.doctype_and_head +:+ PyStr.text ["<title>"].
Proof. reflexivity. Qed.

Lemma head_meta_split :
  Redoc.head_meta = PyStr.text ["</title>"] +:+ Redoc.meta_elements.
Proof. reflexivity. Qed.

Lemma favicon_open_split :
  Redoc.favicon_open
  = Redoc.line_break +:+ PyStr.text ["<link rel=~shortcut icon~ href=~"].
Proof. reflexivity. Qed.

Lemma style_and_body_split :
  Redoc.style_and_body
  = PyStr.text ["~>"] +:+ Redoc.style_element +:+ Redoc.container
    +:+ Redoc.noscript_element +:+ PyStr.text ["<script src=~"].
Proof. reflexivity. Qed.

Lemma init_open_script_split :
  Redoc.init_open
  = PyStr.text ["~> </script>"] +:+ Redoc.script_open
    +:+ PyStr.text ["Redoc.init(~"].
Proof. reflexivity. Qed.

Variable with_google_fonts : bool.

(** The page, element by element. *)
Lemma page_elements :
  body (get_redoc_html_with_theme openapi_url page_title redoc_js_url
          redoc_favicon_url with_google_fonts theme)
  = Redoc.doctype_and_head +:+ Redoc.title_tag page_title
    +:+ Redoc.meta_elements
    +:+ (if with_google_fonts then Redoc.google_fonts else "")
    +:+ Redoc.line_break +:+ Redoc.favicon_link redoc_favicon_url
    +:+ Redoc.style_element +:+ Redoc.container +:+ Redoc.noscript_element
    +:+ Redoc.script_tag redoc_js_url +:+ Redoc.script_open
    +:+ Redoc.init_call openapi_url
    +:+ Redoc.theme_literal +:+ Redoc.page_close.
Proof.
  rewrite page_shape, head_open_split, head_meta_split, favicon_open_split,
    style_and_body_split, init_open_script_split.
  unfold Redoc.title_tag, Redoc.favicon_link, Redoc.script_tag,
    Redoc.init_call.
  change Redoc.init_comma with (PyStr.text ["~, "]).
  rewrite !PyStrFacts.append_assoc. reflexivity.
Qed.

(** X8. The string parameters are put into the page as they are, each in
    its element: the title between the title tags, the favicon URL as the
    target of the shortcut-icon link, the viewer URL as the source of a
    script element.  Nothing is escaped. *)
Theorem redoc_page_slots :
  let page :=
    body (get_redoc_html_with_theme openapi_url page_title redoc_js_url
            redoc_favicon_url with_google_fonts theme) in
  PyStr.contains (Redoc.title_tag page_title) page = true
  ∧ PyStr.contains (Redoc.favicon_link redoc_favicon_url) page = true
  ∧ PyStr.contains (Redoc.script_tag redoc_js_url) page = true.
Proof.
  intros page. unfold page. rewrite page_elements.
  repeat split; apply PyStrFacts.contains_spec.
  - exists Redoc.doctype_and_head. eexists. reflexivity.
  - exists (Redoc.doctype_and_head +:+ Redoc.title_tag page_title
            +:+ Redoc.meta_elements
            +:+ (if with_google_fonts then Redoc.google_fonts else "")
            +:+ Redoc.line_break).
    eexists. rewrite !PyStrFacts.append_assoc. reflexivity.
  - exists (Redoc.doctype_and_head +:+ Redoc.title_tag page_title
            +:+ Redoc.meta_elements
            +:+ (if with_google_fonts then Redoc.google_fonts else "")
            +:+ Redoc.line_break +:+ Redoc.favicon_link redoc_favicon_url
            +:+ Redoc.style_element +:+ Redoc.container
            +:+ Redoc.noscript_element).
    eexists. rewrite !PyStrFacts.append_assoc. reflexivity.
Qed.

(** X9. In the page the container element comes first, then the script
    element that loads the viewer, then the call of the viewer on the schema
    URL with the theme literal as its second argument; the page ends after
    that call. *)
Theorem redoc_page_order :
  ∃ before,
    body (get_redoc_html_with_theme openapi_url page_title redoc_js_url
            redoc_favicon_url with_google_fonts theme)
    = before +:+ Redoc.container
      +:+ Redoc.noscript_element +:+ Redoc.script_tag redoc_js_url
      +:+ Redoc.script_open +:+ Redoc.init_call openapi_url
      +:+ Redoc.theme_literal +:+ Redoc.page_close.
Proof.
  exists (Redoc.doctype_and_head +:+ Redoc.title_tag page_title
          +:+ Redoc.meta_elements
          +:+ (if with_google_fonts then Redoc.google_fonts else "")
          +:+ Redoc.line_break +:+ Redoc.favicon_link redoc_favicon_url
          +:+ Redoc.style_element).
  rewrite page_elements, !PyStrFacts.append_assoc. reflexivity.
Qed.

End RedocMore.

(** ** The OpenAPI schema generator, continued *)

Module DictMoreFacts.

(** assigning to a key that is there changes no key *)
Lemma keys_set_present k v v' d :
  Dict.get k d = Some v → Dict.keys (Dict.set k v' d) = Dict.keys d.
Proof.
  induction d as [|[k0 v0] d IH]; simpl; [discriminate |].
  destruct (String.eqb k k0) eqn:Hk; simpl; [reflexivity |].
  intros Hget. f_equal. now apply IH.
Qed.

(** assigning to a key that is not there puts it last *)
Lemma keys_set_absent k v' d :
  Dict.get k d = None → Dict.keys (Dict.set k v' d) = Dict.keys d ++ [k].
Proof.
  induction d as [|[k0 v0] d IH]; simpl; [reflexivity |].
  destruct (String.eqb k k0) eqn:Hk; simpl; [discriminate |].
  intros Hget. f_equal. now apply IH.
Qed.

End DictMoreFacts.

Section OpenAPIMore.

Variable get_openapi :
  string → string → string → json → json → list Route → py json.

Lemma custom_openapi_uncached w :
  uncached w →
  custom_openapi get_openapi w
  = (schema ← get_openapi title version description contact license_info
                (app_routes w);
     openapi_schema ← new_object schema;
     info ← getitem schema "info";
     info ← setitem info "x-logo" x_logo;
     schema ← setitem schema "info" info;
     _ ← store openapi_schema schema;
     _ ← set_openapi_schema openapi_schema;
     get_openapi_schema) w.
Proof.
  unfold uncached, custom_openapi, mbind, py_mbind, py_bind,
    get_openapi_schema, object_truth, get_routes. simpl.
  intros Hun. injection Hun as ->. reflexivity.
Qed.

(** X10. When the framework's generation raises, the generator raises the
    same exception in the state the generation left: nothing is stored, so
    the next call generates again. *)
Theorem custom_openapi_generation_raises w e w1 :
  uncached w →
  get_openapi title version description contact license_info
    (app_routes w) w = (Raised e, w1) →
  custom_openapi get_openapi w = (Raised e, w1).
Proof.
  intros Hun Hgen. rewrite (custom_openapi_uncached w Hun).
  unfold mbind, py_mbind, py_bind. now rewrite Hgen.
Qed.

(** X11. When the generated schema has no [info], the generator raises
    [KeyError('info')] and does not set [app.openapi_schema]. *)
Theorem custom_openapi_without_info w d w1 :
  uncached w →
  get_openapi title version description contact license_info
    (app_routes w) w = (Returned (JDict d), w1) →
  Dict.get "info" d = None →
  ∃ w2,
    custom_openapi get_openapi w = (Raised (KeyError "info"), w2)
    ∧ app_openapi_schema w2 = app_openapi_schema w1
    ∧ log w2 = log w1.
Proof.
  intros Hun Hgen Hinfo. rewrite (custom_openapi_uncached w Hun).
  unfold mbind, py_mbind, py_bind. rewrite Hgen. simpl. rewrite Hinfo.
  eexists. split; [reflexivity |]. split; reflexivity.
Qed.

(** X12. The cache is tested for truth, not for being set: when the stored
    schema is an empty dict, the generator generates again and stores a new
    object, other than the stored one. *)
Theorem custom_openapi_empty_schema w r0 d info w1 :
  app_openapi_schema w = Some r0 →
  heap w !! r0 = Some (JDict []) →
  get_openapi title version description contact license_info
    (app_routes w) w = (Returned (JDict d), w1) →
  Dict.get "info" d = Some (JDict info) →
  is_Some (heap w1 !! r0) →
  ∃ r w2,
    custom_openapi get_openapi w = (Returned (Some r), w2)
    ∧ r ≠ r0
    ∧ app_openapi_schema w2 = Some r
    ∧ heap w2 !! r = Some (with_logo d info)
    ∧ heap w2 !! r0 = heap w1 !! r0.
Proof.
  intros Hattr Hobj Hgen Hinfo Hkept.
  assert (uncached w) as Hun by (unfold uncached; simpl; now rewrite Hattr, Hobj).
  rewrite (custom_openapi_uncached w Hun).
  unfold mbind, py_mbind, py_bind. rewrite Hgen. simpl. rewrite Hinfo. simpl.
  assert (fresh (dom (heap w1)) ≠ r0) as Hfresh.
  { intros <-. apply elem_of_dom in Hkept. now apply is_fresh in Hkept. }
  eexists _, _. split; [reflexivity |].
  split; [exact Hfresh |]. split; [reflexivity |].
  split; [simpl; apply lookup_insert_eq |].
  simpl. now rewrite !lookup_insert_ne.
Qed.

(** X13. Apart from the logo the stored schema is the generated one: it has
    the same top-level keys in the same order and the same value under every
    key but [info], and [info] has the same value under every key but
    [x-logo].  The logo takes the place of an [x-logo] that is there, and
    goes last otherwise. *)
Theorem custom_openapi_keeps_schema w d info w1 :
  uncached w →
  get_openapi title version description contact license_info
    (app_routes w) w = (Returned (JDict d), w1) →
  Dict.get "info" d = Some (JDict info) →
  ∃ r w2 built built_info,
    custom_openapi get_openapi w = (Returned (Some r), w2)
    ∧ heap w2 !! r = Some (JDict built)
    ∧ Dict.keys built = Dict.keys d
    ∧ (∀ k, k ≠ "info" → Dict.get k built = Dict.get k d)
    ∧ Dict.get "info" built = Some (JDict built_info)
    ∧ (∀ k, k ≠ "x-logo" → Dict.get k built_info = Dict.get k info)
    ∧ Dict.keys built_info
      = match Dict.get "x-logo" info with
        | Some _ => Dict.keys info
        | None => Dict.keys info ++ ["x-logo"]
        end.
Proof.
  intros Hun Hgen Hinfo. rewrite (custom_openapi_uncached w Hun).
  unfold mbind, py_mbind, py_bind. rewrite Hgen. simpl. rewrite Hinfo. simpl.
  eexists _, _, _, _. split; [reflexivity |].
  split; [simpl; apply lookup_insert_eq |].
  split; [now apply DictMoreFacts.keys_set_present with (v := JDict info) |].
  split; [intros k Hk; apply DictFacts.get_set_ne; congruence |].
  split; [apply DictFacts.get_set_eq |].
  split; [intros k Hk; apply DictFacts.get_set_ne; congruence |].
  destruct (Dict.get "x-logo" info) eqn:Hlogo.
  - now apply DictMoreFacts.keys_set_present with (v := j).
  - now apply DictMoreFacts.keys_set_absent.
Qed.

(** X14. Beyond what the framework's generation does, the generator changes
    the new object and [app.openapi_schema] and nothing else: every object
    that was in the store is as it was, nothing is logged, the clock is not
    read and the routes are not changed. *)
Theorem custom_openapi_frame w d info w1 :
  uncached w →
  get_openapi title version description contact license_info
    (app_routes w) w = (Returned (JDict d), w1) →
  Dict.get "info" d = Some (JDict info) →
  ∃ r w2,
    custom_openapi get_openapi w = (Returned (Some r), w2)
    ∧ heap w1 !! r = None
    ∧ (∀ r', r' ≠ r → heap w2 !! r' = heap w1 !! r')
    ∧ log w2 = log w1
    ∧ clock_reads w2 = clock_reads w1
    ∧ app_routes w2 = app_routes w1.
Proof.
  intros Hun Hgen Hinfo. rewrite (custom_openapi_uncached w Hun).
  unfold mbind, py_mbind, py_bind. rewrite Hgen. simpl. rewrite Hinfo. simpl.
  eexists _, _. split; [reflexivity |].
  split; [apply not_elem_of_dom, is_fresh |].
  split; [| repeat split].
  intros r' Hr'. simpl. now rewrite !lookup_insert_ne.
Qed.

(** X15. The root endpoint and the schema agree: given that the framework
    puts the title and the version it is handed under [title] and [version]
    of [info], the stored schema has there the title and the version that
    [GET /] returns. *)
Theorem custom_openapi_title_version w schema w1 wr :
  (∀ t v ds c l routes w0 s w0',
      get_openapi t v ds c l routes w0 = (Returned s, w0') →
      info_item s "title" = Some (JStr t)
      ∧ info_item s "version" = Some (JStr v)) →
  uncached w →
  get_openapi title version description contact license_info
    (app_routes w) w = (Returned schema, w1) →
  ∃ r w2 built fields wr',
    custom_openapi get_openapi w = (Returned (Some r), w2)
    ∧ heap w2 !! r = Some built
    ∧ get_api_information wr = (Returned (JDict fields), wr')
    ∧ info_item built "title" = Dict.get "title" fields
    ∧ info_item built "version" = Dict.get "version" fields
    ∧ is_Some (info_item built "title")
    ∧ is_Some (info_item built "version").
Proof.
  intros Hframework Hun Hgen.
  destruct (Hframework _ _ _ _ _ _ _ _ _ Hgen) as [Htitle Hversion].
  destruct schema as [| | | |d]; try discriminate.
  unfold info_item in Htitle, Hversion.
  destruct (Dict.get "info" d) as [[| | | |info]|] eqn:Hinfo;
    try discriminate.
  rewrite (custom_openapi_uncached w Hun).
  unfold mbind, py_mbind, py_bind. rewrite Hgen. simpl. rewrite Hinfo. simpl.
  eexists _, _, _, _, _. split; [reflexivity |].
  split; [simpl; apply lookup_insert_eq |].
  split; [reflexivity |].
  unfold info_item. rewrite DictFacts.get_set_eq.
  rewrite !DictFacts.get_set_ne by discriminate.
  rewrite Htitle, Hversion. repeat split; eauto.
Qed.

End OpenAPIMore.

(** ** The page served through the middleware *)


(** ** Runs of the further properties *)


Lemma add_process_time_header_number_witness :
  let w := Run.started Run.clock_set_back in
  let response := {| status_code := 200;
                     headers := {[ "content-type" := "application/json" ]};
                     body := "{}" |} in
  Run.ok_handler Run.get_root (entered w) = (Returned response, entered w)
  ∧ float_finite (Run.clock_set_back 0) = true
  ∧ float_finite (Run.clock_set_back 1) = true
  ∧ ∃ out w'' process_time,
      add_process_time_header Run.exact_decimal Run.get_root Run.ok_handler w
      = (Returned out, w'')
      ∧ headers out !! "X-Process-Time"
        = Some (Run.exact_decimal process_time)
      ∧ process_time
        = float_sub (Run.clock_set_back 1) (Run.clock_set_back 0)
      ∧ process_time ≠ S754_nan.
Proof.
  intros w response. split; [reflexivity |].
  split; [reflexivity |]. split; [reflexivity |].
  apply (add_process_time_header_number Run.exact_decimal Run.get_root
           Run.ok_handler w response (entered w));
    reflexivity.
Defined.

Lemma add_process_time_header_zero_witness :
  let w := Run.started Run.frozen_clock in
  let response := {| status_code := 200;
                     headers := {[ "content-type" := "application/json" ]};
                     body := "{}" |} in
  Run.ok_handler Run.get_root (entered w) = (Returned response, entered w)
  ∧ float_finite (Run.frozen_clock 0) = true
  ∧ Run.frozen_clock 1 = Run.frozen_clock 0
  ∧ ∃ out w'',
      add_process_time_header Run.exact_decimal Run.get_root Run.ok_handler w
      = (Returned out, w'')
      ∧ headers out !! "X-Process-Time"
        = Some (Run.exact_decimal (S754_zero false)).
Proof.
  intros w response. split; [reflexivity |].
  split; [reflexivity |]. split; [reflexivity |].
  apply (add_process_time_header_zero Run.exact_decimal Run.get_root
           Run.ok_handler w response (entered w));
    reflexivity.
Defined.

Lemma add_process_time_header_negative_witness :
  let w := Run.started Run.clock_set_back in
  let response := {| status_code := 200;
                     headers := {[ "content-type" := "application/json" ]};
                     body := "{}" |} in
  Run.ok_handler Run.get_root (entered w) = (Returned response, entered w)
  ∧ float_finite (Run.clock_set_back 0) = true
  ∧ float_finite (Run.clock_set_back 1) = true
  ∧ float_lt (Run.clock_set_back 1) (Run.clock_set_back 0) = true
  ∧ ∃ out w'',
      add_process_time_header Run.exact_decimal Run.get_root Run.ok_handler w
      = (Returned out, w'')
      ∧ headers out !! "X-Process-Time"
        = Some (Run.exact_decimal
                  (float_sub (Run.clock_set_back 1) (Run.clock_set_back 0)))
      ∧ float_neg (float_sub (Run.clock_set_back 1) (Run.clock_set_back 0))
        = true
      ∧ float_nonneg
          (float_sub (Run.clock_set_back 1) (Run.clock_set_back 0))
        = false.
Proof.
  intros w response. split; [reflexivity |].
  split; [reflexivity |]. split; [reflexivity |]. split; [reflexivity |].
  apply (add_process_time_header_negative Run.exact_decimal Run.get_root
           Run.ok_handler w response (entered w));
    reflexivity.
Defined.

Lemma custom_openapi_generation_raises_witness :
  let w := Run.started Run.steady_clock in
  let e := Exception "AssertionError" "a response model is not valid" in
  uncached w
  ∧ Run.failing_get_openapi title version description contact license_info
      (app_routes w) w = (Raised e, w)
  ∧ custom_openapi Run.failing_get_openapi w = (Raised e, w).
Proof.
  intros w e. split; [reflexivity |]. split; [reflexivity |].
  apply (custom_openapi_generation_raises Run.failing_get_openapi w e w);
    reflexivity.
Defined.

Lemma custom_openapi_without_info_witness :
  let w := Run.started Run.steady_clock in
  let d := [("openapi", JStr "3.0.2"); ("paths", JDict [])] in
  uncached w
  ∧ Run.get_openapi_without_info title version description contact
      license_info (app_routes w) w = (Returned (JDict d), w)
  ∧ Dict.get "info" d = None
  ∧ ∃ w2,
      custom_openapi Run.get_openapi_without_info w
      = (Raised (KeyError "info"), w2)
      ∧ app_openapi_schema w2 = app_openapi_schema w
      ∧ log w2 = log w.
Proof.
  intros w d. split; [reflexivity |]. split; [reflexivity |].
  split; [reflexivity |].
  apply (custom_openapi_without_info Run.get_openapi_without_info w d w);
    reflexivity.
Defined.

Lemma custom_openapi_empty_schema_witness :
  let w := Run.stale in
  ∃ d info,
    app_openapi_schema w = Some 0%nat
    ∧ heap w !! 0%nat = Some (JDict [])
    ∧ Run.get_openapi title version description contact license_info
        (app_routes w) w = (Returned (JDict d), w)
    ∧ Dict.get "info" d = Some (JDict info)
    ∧ is_Some (heap w !! 0%nat)
    ∧ ∃ r w2,
        custom_openapi Run.get_openapi w = (Returned (Some r), w2)
        ∧ r ≠ 0%nat
        ∧ app_openapi_schema w2 = Some r
        ∧ heap w2 !! r = Some (with_logo d info)
        ∧ heap w2 !! 0%nat = heap w !! 0%nat.
Proof.
  intros w. eexists _, _.
  split; [reflexivity |]. split; [reflexivity |]. split; [reflexivity |].
  split; [reflexivity |]. split; [eexists; reflexivity |].
  eapply (custom_openapi_empty_schema Run.get_openapi w 0%nat _ _ w);
    try reflexivity.
  eexists; reflexivity.
Defined.

Lemma custom_openapi_keeps_schema_witness :
  let w := Run.started Run.steady_clock in
  ∃ d info,
    uncached w
    ∧ Run.get_openapi title version description contact license_info
        (app_routes w) w = (Returned (JDict d), w)
    ∧ Dict.get "info" d = Some (JDict info)
    ∧ ∃ r w2 built built_info,
        custom_openapi Run.get_openapi w = (Returned (Some r), w2)
        ∧ heap w2 !! r = Some (JDict built)
        ∧ Dict.keys built = Dict.keys d
        ∧ (∀ k, k ≠ "info" → Dict.get k built = Dict.get k d)
        ∧ Dict.get "info" built = Some (JDict built_info)
        ∧ (∀ k, k ≠ "x-logo" → Dict.get k built_info = Dict.get k info)
        ∧ Dict.keys built_info
          = match Dict.get "x-logo" info with
            | Some _ => Dict.keys info
            | None => Dict.keys info ++ ["x-logo"]
            end.
Proof.
  intros w. eexists _, _.
  split; [reflexivity |]. split; [reflexivity |]. split; [reflexivity |].
  eapply (custom_openapi_keeps_schema Run.get_openapi w _ _ w); reflexivity.
Defined.

Lemma custom_openapi_frame_witness :
  let w := Run.stale in
  ∃ d info,
    uncached w
    ∧ Run.get_openapi title version description contact license_info
        (app_routes w) w = (Returned (JDict d), w)
    ∧ Dict.get "info" d = Some (JDict info)
    ∧ ∃ r w2,
        custom_openapi Run.get_openapi w = (Returned (Some r), w2)
        ∧ heap w !! r = None
        ∧ (∀ r', r' ≠ r → heap w2 !! r' = heap w !! r')
        ∧ log w2 = log w
        ∧ clock_reads w2 = clock_reads w
        ∧ app_routes w2 = app_routes w.
Proof.
  intros w. eexists _, _.
  split; [reflexivity |]. split; [reflexivity |]. split; [reflexivity |].
  eapply (custom_openapi_frame Run.get_openapi w _ _ w); reflexivity.
Defined.

(** The generation used in the runs puts the title and the version it is
    handed into [info]. *)
Lemma run_get_openapi_title t v ds c l routes w0 s w0' :
  Run.get_openapi t v ds c l routes w0 = (Returned s, w0') →
  info_item s "title" = Some (JStr t) ∧ info_item s "version" = Some (JStr v).
Proof.
  unfold Run.get_openapi, mret, py_mret, py_ret. intros Hrun.
  injection Hrun as <- _.
  unfold info_item. cbn [Dict.get String.eqb Ascii.eqb Bool.eqb].
  destruct (negb (String.eqb ds "")), (truthy c), (truthy l);
    rewrite ?DictFacts.get_set_ne by discriminate; split; reflexivity.
Qed.

Lemma custom_openapi_title_version_witness :
  let w := Run.started Run.steady_clock in
  ∃ schema,
    uncached w
    ∧ Run.get_openapi title version description contact license_info
        (app_routes w) w = (Returned schema, w)
    ∧ ∃ r w2 built fields wr',
        custom_openapi Run.get_openapi w = (Returned (Some r), w2)
        ∧ heap w2 !! r = Some built
        ∧ get_api_information w = (Returned (JDict fields), wr')
        ∧ info_item built "title" = Dict.get "title" fields
        ∧ info_item built "version" = Dict.get "version" fields
        ∧ is_Some (info_item built "title")
        ∧ is_Some (info_item built "version").
Proof.
  intros w. eexists.
  split; [reflexivity |]. split; [reflexivity |].
  eapply (custom_openapi_title_version Run.get_openapi w _ w w).
  - exact run_get_openapi_title.
  - reflexivity.
  - reflexivity.
Defined.
